(** * imsimap: the capture-session pipeline of [imsimap.py]

    A shallow embedding of the parts of [src/imsimap.py] that carry state:
    the subprocess line generator [runProcess], the reader thread
    [OutputReader.run], the table slot [IMSIMAP.update_table], session
    replay ([extract_params_from_logs], [repeat_scan]) and the table
    exporter [export_table].

    Python values are modelled as follows.
    - [str]   : a list of Unicode code points ([N]);
    - [bytes] : a list of [Byte.byte];
    - a raised exception : the [Raise] branch of [result];
    - a Qt table : the flat item vector Qt keeps, indexed row-major. *)

From Stdlib Require Import NArith ZArith Strings.String Strings.Ascii Strings.Byte Lia.
From stdpp Require Import base option list gmap.

Local Open Scope nat_scope.

(** ** Text *)

Abbreviation str := (list N).
Abbreviation bytes := (list byte).

(** An ASCII literal as a Python [str]. *)
Definition py (s : string) : str :=
  map N_of_ascii (list_ascii_of_string s).

Definition chr (a : ascii) : N := N_of_ascii a.

Module PyStr.

(** [s.startswith(pre)] *)
Fixpoint startswith (pre s : str) : bool :=
  match pre, s with
  | [], _ => true
  | _ :: _, [] => false
  | p :: pre', c :: s' => (p =? c)%N && startswith pre' s'
  end.

(** [sub in s] *)
Fixpoint contains (sub s : str) : bool :=
  startswith sub s ||
  match s with
  | [] => false
  | _ :: s' => contains sub s'
  end.

(** [s.count(c)] for a one-character [c]. *)
Fixpoint count (c : N) (s : str) : nat :=
  match s with
  | [] => 0
  | x :: s' => (if (x =? c)%N then 1 else 0) + count c s'
  end.

(** [s.split(c)] for a one-character separator [c]. *)
Fixpoint split (c : N) (s : str) : list str :=
  match s with
  | [] => [[]]
  | x :: s' =>
      if (x =? c)%N then [] :: split c s'
      else match split c s' with
           | f :: fs => (x :: f) :: fs
           | [] => [[x]]
           end
  end.

(** [sep.join(parts)] *)
Fixpoint join (sep : str) (parts : list str) : str :=
  match parts with
  | [] => []
  | [p] => p
  | p :: ps => p ++ sep ++ join sep ps
  end.

(** [str.isspace] on one code point (the characters [str.strip()] removes). *)
Definition isspace (c : N) : bool :=
  ((9 <=? c) && (c <=? 13) || (28 <=? c) && (c <=? 32)
   || (c =? 133) || (c =? 160) || (c =? 5760)
   || (8192 <=? c) && (c <=? 8202)
   || (c =? 8232) || (c =? 8233) || (c =? 8239) || (c =? 8287)
   || (c =? 12288))%N.

Fixpoint lstrip (s : str) : str :=
  match s with
  | c :: s' => if isspace c then lstrip s' else s
  | [] => []
  end.

Definition rstrip (s : str) : str := rev (lstrip (rev s)).

(** [s.strip()] *)
Definition strip (s : str) : str := rstrip (lstrip s).

(** [s.endswith(suf)] *)
Definition endswith (suf s : str) : bool := startswith (rev suf) (rev s).

End PyStr.

(** ** The Qt table behind [imsi_table]

    [QTableWidget] keeps its items in one vector, [tableItems], of length
    [rowCount * columnCount]; cell (r, c) lives at index
    [r * columnCount + c].  An entry is [None] where no item was set. *)

Record QTableWidget := mkTable {
  columnCount : nat;
  rowCount : nat;
  tableItems : list (option str)
}.

Module Table.

Definition tableIndex (t : QTableWidget) (row column : nat) : nat :=
  row * columnCount t + column.

(** [t.insertRow(row)]: refused when [row] is past the end. *)
Definition insertRow (t : QTableWidget) (row : nat) : QTableWidget :=
  if decide (row ≤ rowCount t) then
    let i := tableIndex t row 0 in
    mkTable (columnCount t) (S (rowCount t))
            (take i (tableItems t) ++ replicate (columnCount t) None
               ++ drop i (tableItems t))
  else t.

(** [t.setItem(row, column, QTableWidgetItem(text))]: Qt only checks that
    the flat index falls inside the vector. *)
Definition setItem (t : QTableWidget) (row column : nat) (text : str)
  : QTableWidget :=
  let i := tableIndex t row column in
  if decide (i < length (tableItems t)) then
    mkTable (columnCount t) (rowCount t) (<[i := Some text]> (tableItems t))
  else t.

(** [t.item(row, column)]: [None] for a cell out of range or never set. *)
Definition item (t : QTableWidget) (row column : nat) : option str :=
  if decide (row < rowCount t ∧ column < columnCount t) then
    mjoin (tableItems t !! tableIndex t row column)
  else None.

(** The reading idiom of the exporters:
    [t.item(row, col).text() if t.item(row, col) else ''] *)
Definition text (t : QTableWidget) (row column : nat) : str :=
  match item t row column with
  | Some s => s
  | None => []
  end.

Definition wf (t : QTableWidget) : Prop :=
  length (tableItems t) = rowCount t * columnCount t.

End Table.

(** [enumerate(l)] *)
Fixpoint enumerate_from {A} (i : nat) (l : list A) : list (nat * A) :=
  match l with
  | [] => []
  | x :: l' => (i, x) :: enumerate_from (S i) l'
  end.

Definition enumerate {A} (l : list A) : list (nat * A) := enumerate_from 0 l.

(** The table as [IMSIMAP.__init__] builds it: no rows, eleven columns. *)
Definition imsi_table_init : QTableWidget := mkTable 11 0 [].

Definition header_labels : list str :=
  map py ["TMSI-1"; "TMSI-2"; "IMSI"; "Country"; "Brand"; "Operator";
          "MCC"; "MNC"; "LAC"; "CellId"; "Timestamp"]%string.

(** The test both [update_table] and [IMSITableDialog.populate_table] make:
    [line.count(';') >= 6 and 'CellId' not in line] *)
Definition record_bearing (line : str) : bool :=
  bool_decide (6 ≤ PyStr.count (chr ";") line)
  && negb (PyStr.contains (py "CellId") line).

(** [IMSIMAP.update_table(output_line)] *)
Definition update_table (t : QTableWidget) (output_line : str) : QTableWidget :=
  if record_bearing output_line then
    let fields := PyStr.split (chr ";") output_line in
    let row_position := rowCount t in
    let t1 := Table.insertRow t row_position in
    foldl (fun acc '(i, field) => Table.setItem acc row_position i field)
          t1 (enumerate (drop 1 fields))
  else t.

(** The cells a row receives from [enumerate(fields)], starting at column [k]. *)
Definition paint (k : nat) (fs : list str) (row : list (option str))
  : list (option str) :=
  foldl (fun r '(i, f) => <[i := Some f]> r) row (enumerate_from k fs).

(** ** Exceptions *)

Inductive exn :=
| UnicodeDecodeError | UnicodeEncodeError | AttributeError | ValueError
| TypeError | KeyError | OverflowError | OSError | DatabaseError.

Inductive result (A : Type) :=
| Ok (a : A)
| Raise (e : exn).
Arguments Ok {A} a.
Arguments Raise {A} e.

Definition bind {A B} (r : result A) (k : A → result B) : result B :=
  match r with
  | Ok a => k a
  | Raise e => Raise e
  end.

Notation "x <- r ;; k" := (bind r (fun x => k))
  (at level 100, r at next level, right associativity).

(** ** [bytes.decode('utf-8', errors)]

    The codec reads one scalar value at a time.  At an ill-formed sequence
    it reports an error range (the bytes that cannot start or continue a
    well-formed sequence) to the handler named by [errors], and resumes
    after that range. *)

Inductive errors := Strict | Ignore | Replace.

Inductive utf8_item :=
| Eof
| Char (c : N) (rest : bytes)
| Bad (rest : bytes).

Definition is_continuation (c : N) : bool := ((128 <=? c) && (c <? 192))%N.

Definition low6 (c : N) : N := N.land c 63.

Definition utf8_step (bs : bytes) : utf8_item :=
  match bs with
  | [] => Eof
  | b0 :: r0 =>
      let ch := Byte.to_N b0 in
      if (ch <? 128)%N then Char ch r0
      else if (ch <? 194)%N then Bad r0
      else if (ch <? 224)%N then
        match r0 with
        | [] => Bad []
        | b1 :: r1 =>
            let ch2 := Byte.to_N b1 in
            if is_continuation ch2
            then Char (N.lor (N.shiftl (N.land ch 31) 6) (low6 ch2)) r1
            else Bad r0
        end
      else if (ch <? 240)%N then
        match r0 with
        | [] => Bad []
        | b1 :: r1 =>
            let ch2 := Byte.to_N b1 in
            if negb (is_continuation ch2)
               || (if (ch2 <? 160)%N then (ch =? 224)%N else (ch =? 237)%N)
            then Bad r0
            else
              match r1 with
              | [] => Bad []
              | b2 :: r2 =>
                  let ch3 := Byte.to_N b2 in
                  if is_continuation ch3
                  then Char (N.lor (N.shiftl (N.land ch 15) 12)
                               (N.lor (N.shiftl (low6 ch2) 6) (low6 ch3))) r2
                  else Bad r1
              end
        end
      else if (ch <? 245)%N then
        match r0 with
        | [] => Bad []
        | b1 :: r1 =>
            let ch2 := Byte.to_N b1 in
            if negb (is_continuation ch2)
               || (if (ch2 <? 144)%N then (ch =? 240)%N else (ch =? 244)%N)
            then Bad r0
            else
              match r1 with
              | [] => Bad []
              | b2 :: r2 =>
                  let ch3 := Byte.to_N b2 in
                  if negb (is_continuation ch3) then Bad r1
                  else
                    match r2 with
                    | [] => Bad []
                    | b3 :: r3 =>
                        let ch4 := Byte.to_N b3 in
                        if is_continuation ch4
                        then Char (N.lor (N.shiftl (N.land ch 7) 18)
                                     (N.lor (N.shiftl (low6 ch2) 12)
                                        (N.lor (N.shiftl (low6 ch3) 6)
                                           (low6 ch4)))) r3
                        else Bad r2
                    end
              end
        end
      else Bad r0
  end.

(** What the handler named by [errors] does with an error range. *)
Definition on_error (h : errors) (rest : result str) : result str :=
  match h with
  | Strict => Raise UnicodeDecodeError
  | Ignore => rest
  | Replace => s <- rest ;; Ok (65533%N :: s)
  end.

Fixpoint utf8_decode_loop (h : errors) (fuel : nat) (bs : bytes) : result str :=
  match fuel with
  | 0 => Ok []
  | S fuel' =>
      match utf8_step bs with
      | Eof => Ok []
      | Char c rest => s <- utf8_decode_loop h fuel' rest ;; Ok (c :: s)
      | Bad rest => on_error h (utf8_decode_loop h fuel' rest)
      end
  end.

(** [b.decode('utf-8', errors=h)]; every step consumes a byte, so the length
    of the input bounds the number of steps. *)
Definition utf8_decode (h : errors) (bs : bytes) : result str :=
  utf8_decode_loop h (length bs) bs.

(** ** The subprocess and [runProcess] *)

(** What a generator hands to its consumer: [runProcess] yields the [bytes]
    read from the pipe and, for its two synthetic lines, a [str]. *)
Inductive yielded :=
| YBytes (b : bytes)
| YStr (s : str).

(** [x.decode('utf-8', errors)] on a yielded object; [str] has no [decode]. *)
Definition decode (x : yielded) (h : errors) : result str :=
  match x with
  | YBytes b => utf8_decode h b
  | YStr _ => Raise AttributeError
  end.

(** The behaviour of one child process as [runProcess] observes it: for each
    turn of its loop, what [p.poll()] returns and what [p.stdout.readline()]
    returns next; and what [p.stderr.read()] returns. *)
Record process := mkProcess {
  turns : list (option Z * bytes);
  stderr_data : bytes
}.

(** The outcome of [subprocess.Popen(exe, ...)]. *)
Inductive launch :=
| LaunchFails (description : str)
| Launched (p : process).

(** What [runProcess] yields after the last line, once [poll()] returned
    [retcode]: the block under [if retcode != 0].  An exception there would
    reach the generator's own [except Exception] (decoding with [Ignore]
    raises none, see [utf8_ignore_total]). *)
Definition on_exit (retcode : Z) (p_stderr : bytes) : list yielded :=
  if decide (retcode ≠ 0%Z) then
    match utf8_decode Ignore p_stderr with
    | Ok e =>
        let err := PyStr.strip e in
        if decide (err ≠ []) then [YStr (py "Error: " ++ err)] else []
    | Raise e => [YStr (py "Exception: ")]
    end
  else [].

(** The [while True] loop of [runProcess].  The result pairs the lines
    yielded with a flag telling whether the generator finished; it is [false]
    when the observed turns end with the process still running. *)
Fixpoint runProcess_loop (p_stderr : bytes) (ts : list (option Z * bytes))
  : list yielded * bool :=
  match ts with
  | [] => ([], false)
  | (retcode, line) :: ts' =>
      match retcode with
      | Some rc => (YBytes line :: on_exit rc p_stderr, true)
      | None =>
          let '(ys, finished) := runProcess_loop p_stderr ts' in
          (YBytes line :: ys, finished)
      end
  end.

(** [runProcess(exe)], given what [Popen] does. *)
Definition runProcess (l : launch) : list yielded * bool :=
  match l with
  | LaunchFails e => ([YStr (py "Exception: " ++ e)], true)
  | Launched p => runProcess_loop (stderr_data p) (turns p)
  end.

(** ** [OutputReader.run] *)

(** The inner [try]: [line.decode('utf-8').strip()], falling back to
    [errors='ignore'] on [UnicodeDecodeError] only. *)
Definition decode_line (line : yielded) : result str :=
  match decode line Strict with
  | Ok s => Ok (PyStr.strip s)
  | Raise UnicodeDecodeError =>
      s <- decode line Ignore ;; Ok (PyStr.strip s)
  | Raise e => Raise e
  end.

(** [if decoded_line and 'CellId' not in decoded_line] *)
Definition worth_emitting (decoded_line : str) : bool :=
  negb (bool_decide (decoded_line = []))
  && negb (PyStr.contains (py "CellId") decoded_line).

(** The [for line in runProcess(...)] loop: the lines passed to
    [output_signal.emit], and the exception that left the loop, if any. *)
Fixpoint read_lines (ys : list yielded) : list str * option exn :=
  match ys with
  | [] => ([], None)
  | line :: ys' =>
      match decode_line line with
      | Raise e => ([], Some e)
      | Ok decoded_line =>
          let '(out, e) := read_lines ys' in
          ((if worth_emitting decoded_line then [decoded_line] else []) ++ out,
           e)
      end
  end.

(** Where the reader thread stands: about to call [runProcess] again, or
    inside the [for] loop waiting on a process that is still running.  The
    thread has no third state: [run] does not return. *)
Inductive reader_phase := Relaunching | Reading.

Record reader := mkReader {
  launches : nat;
  emitted : list str;
  phase : reader_phase
}.

(** [OutputReader.run], against the outcomes [env] of the successive [Popen]
    calls.  A turn of the outer [while True] ends when the generator is
    exhausted or when an exception reaches [except Exception: pass]; either
    way the loop starts over. *)
Fixpoint run (env : list launch) : reader :=
  match env with
  | [] => mkReader 0 [] Relaunching
  | l :: env' =>
      let '(ys, finished) := runProcess l in
      let '(out, e) := read_lines ys in
      if finished || bool_decide (e ≠ None) then
        let r := run env' in
        mkReader (S (launches r)) (out ++ emitted r) (phase r)
      else mkReader 1 out Reading
  end.

(** ** Numbers: [int(x)] and [float(x)]

    A Python [float] is kept as the decimal numeral it stands for (sign,
    digits, power of ten), or as an infinity or a NaN.  Rounding to binary64
    is not represented, except for the overflow to infinity; nothing below
    depends on it.

    Two things [int] and [float] do with a string are the interpreter's and
    not the program's: which code points beyond ASCII are decimal digits
    (that is the Unicode database it was built with), and how many digits
    [int] takes before it refuses ([sys.get_int_max_str_digits()], [0] for
    no limit). *)

Class Python := {
  unicode_decimal : N → option N;
  int_max_str_digits : nat
}.

(** The decimal digits of a Unicode database come in runs of ten, from a
    zero upwards. *)
Definition decimal_in (zeros : list N) (c : N) : option N :=
  match List.find (fun z => (z <=? c) && (c <? z + 10))%N zeros with
  | Some z => Some (c - z)%N
  | None => None
  end.

(** The zeros beyond ASCII in Unicode 14.0. *)
Definition unicode_14_zeros : list N :=
  [1632; 1776; 1984; 2406; 2534; 2662; 2790; 2918; 3046; 3174; 3302; 3430;
   3558; 3664; 3792; 3872; 4160; 4240; 6112; 6160; 6470; 6608; 6784; 6800;
   6992; 7088; 7232; 7248; 42528; 43216; 43264; 43472; 43504; 43600; 44016;
   65296; 66720; 68912; 69734; 69872; 69942; 70096; 70384; 70736; 70864;
   71248; 71360; 71472; 71904; 72016; 72784; 73040; 73120; 92768; 92864;
   93008; 120782; 120792; 120802; 120812; 120822; 123200; 123632; 125264;
   130032]%N.

(** CPython 3.11 as it is built and started by default; the samples below
    are evaluated with it. *)
#[export] Instance cpython_3_11 : Python := {|
  unicode_decimal := decimal_in unicode_14_zeros;
  int_max_str_digits := 4300
|}.

Inductive pyfloat :=
| Fin (neg : bool) (m : N) (e : Z)
| Inf (neg : bool)
| NaN.

Inductive pyval :=
| VInt (z : Z)
| VFloat (f : pyfloat).

Module Num.

(** Magnitudes from here on round to infinity: [2^1024 - 2^970]. *)
Definition huge : N := (2 ^ 1024 - 2 ^ 970)%N.

(** Does [m * 10^e] reach [huge]? *)
Definition overflows (m : N) (e : Z) : bool :=
  if (0 <=? e)%Z then (huge <=? m * 10 ^ Z.to_N e)%N
  else (huge * 10 ^ Z.to_N (- e) <=? m)%N.

Definition of_numeral (neg : bool) (m : N) (e : Z) : pyfloat :=
  if overflows m e then Inf neg else Fin neg m e.

Definition signed (neg : bool) (m : N) : Z :=
  if neg then (- Z.of_N m)%Z else Z.of_N m.

Definition is_digit (c : N) : bool := ((48 <=? c) && (c <=? 57))%N.
Definition digit (c : N) : N := (c - 48)%N.

(** The blanks [int] and [float] skip at both ends: C's [isspace]. *)
Definition is_space (c : N) : bool :=
  ((9 <=? c) && (c <=? 13) || (c =? 32))%N.

Fixpoint lskip (s : str) : str :=
  match s with
  | c :: s' => if is_space c then lskip s' else s
  | [] => []
  end.

Definition trim (s : str) : str := rev (lskip (rev (lskip s))).

(** What [int] and [float] make of a code point before they parse: ASCII
    stays, any other blank becomes a space, any other decimal digit its
    ASCII digit, and what is left a character no numeral has. *)
Definition to_ascii {python : Python} (c : N) : N :=
  if (c <? 128)%N then c
  else if PyStr.isspace c then 32%N
  else match unicode_decimal c with
       | Some d => (48 + d)%N
       | None => chr "?"
       end.

Definition ascii_form {python : Python} (s : str) : str := map to_ascii s.

(** The rest of a [digitpart ::= digit (["_"] digit)*] after its first
    digit: value so far, digits so far, and what follows the digitpart. *)
Fixpoint digits_more (acc : N) (n : nat) (s : str) : N * nat * str :=
  match s with
  | [] => (acc, n, [])
  | c :: s' =>
      if is_digit c then digits_more (10 * acc + digit c)%N (S n) s'
      else if (c =? chr "_")%N then
        match s' with
        | d :: s'' =>
            if is_digit d then digits_more (10 * acc + digit d)%N (S n) s''
            else (acc, n, s)
        | [] => (acc, n, s)
        end
      else (acc, n, s)
  end.

Definition digitpart (s : str) : option (N * nat * str) :=
  match s with
  | c :: s' => if is_digit c then Some (digits_more (digit c) 1 s') else None
  | [] => None
  end.

(** An optional sign: is it a minus, and what follows. *)
Definition sign (s : str) : bool * str :=
  match s with
  | c :: s' =>
      if (c =? chr "-")%N then (true, s')
      else if (c =? chr "+")%N then (false, s')
      else (false, s)
  | [] => (false, [])
  end.

(** [int(s)] for a [str]: blanks around, a sign, one digitpart of no more
    digits than the interpreter takes. *)
Definition int_of_str {python : Python} (s : str) : result Z :=
  let '(neg, body) := sign (trim (ascii_form s)) in
  match digitpart body with
  | Some (v, n, []) =>
      if (0 <? int_max_str_digits) && (int_max_str_digits <? n)
      then Raise ValueError
      else Ok (signed neg v)
  | _ => Raise ValueError
  end.

Definition lower (c : N) : N :=
  if ((65 <=? c) && (c <=? 90))%N then (c + 32)%N else c.

(** The exponent of a float literal, after mantissa [m] scaled by [10^e]. *)
Definition exponent (neg : bool) (m : N) (e : Z) (s : str) : result pyfloat :=
  match s with
  | [] => Ok (of_numeral neg m e)
  | c :: s' =>
      if (lower c =? chr "e")%N then
        let '(eneg, s'') := sign s' in
        match digitpart s'' with
        | Some (x, _, []) => Ok (of_numeral neg m (e + signed eneg x))
        | _ => Raise ValueError
        end
      else Raise ValueError
  end.

(** The fraction after a decimal point: a digitpart, which may be left out
    when the literal had an integer part ([optional]). *)
Definition fraction (optional neg : bool) (ipart : N) (s : str)
  : result pyfloat :=
  match digitpart s with
  | Some (f, n, rest) =>
      exponent neg (ipart * 10 ^ N.of_nat n + f)%N (- Z.of_nat n) rest
  | None => if optional then exponent neg ipart 0 s else Raise ValueError
  end.

(** [float(s)] for a [str]: blanks around, a sign, then a decimal numeral
    or one of [inf], [infinity], [nan] in any letter case. *)
Definition float_of_str {python : Python} (s : str) : result pyfloat :=
  let '(neg, body) := sign (trim (ascii_form s)) in
  match digitpart body with
  | Some (i, _, rest) =>
      match rest with
      | c :: rest' =>
          if (c =? chr ".")%N then fraction true neg i rest'
          else exponent neg i 0 rest
      | [] => exponent neg i 0 []
      end
  | None =>
      match body with
      | c :: rest' =>
          if (c =? chr ".")%N then fraction false neg 0%N rest'
          else
            let word := map lower body in
            if bool_decide (word = py "inf" ∨ word = py "infinity")
            then Ok (Inf neg)
            else if bool_decide (word = py "nan") then Ok NaN
            else Raise ValueError
      | [] => Raise ValueError
      end
  end.

(** [int(f)] for a [float]: towards zero. *)
Definition int_of_float (f : pyfloat) : result Z :=
  match f with
  | Fin neg m e =>
      if (0 <=? e)%Z then Ok (signed neg (m * 10 ^ Z.to_N e)%N)
      else Ok (signed neg (m / 10 ^ Z.to_N (- e))%N)
  | Inf _ => Raise OverflowError
  | NaN => Raise ValueError
  end.

(** [float(z)] for an [int]. *)
Definition float_of_int (z : Z) : result pyfloat :=
  if (huge <=? Z.abs_N z)%N then Raise OverflowError
  else Ok (Fin (z <? 0)%Z (Z.abs_N z) 0).

End Num.

(** ** Stored sessions *)

(** What [json.load] returns. *)
#[warning="-register-all"]
Inductive json :=
| JNull
| JBool (b : bool)
| JInt (z : Z)
| JFloat (f : pyfloat)
| JStr (s : str)
| JArr (items : list json)
| JObj (members : list (str * json)).

(** [int(x)] *)
Definition py_int {python : Python} (x : json) : result Z :=
  match x with
  | JInt z => Ok z
  | JBool b => Ok (if b then 1 else 0)%Z
  | JFloat f => Num.int_of_float f
  | JStr s => Num.int_of_str s
  | JNull | JArr _ | JObj _ => Raise TypeError
  end.

(** [float(x)] *)
Definition py_float {python : Python} (x : json) : result pyfloat :=
  match x with
  | JInt z => Num.float_of_int z
  | JBool b => Ok (Fin false (if b then 1 else 0)%N 0)
  | JFloat f => Ok f
  | JStr s => Num.float_of_str s
  | JNull | JArr _ | JObj _ => Raise TypeError
  end.

(** [d[key]] on a dict. *)
Definition getitem (d : gmap str json) (key : str) : result json :=
  match d !! key with
  | Some v => Ok v
  | None => Raise KeyError
  end.

(** [convert(x) if x is not None else None] *)
Definition unless_none {A} (convert : json → result A) (x : json)
  : result (option A) :=
  match x with
  | JNull => Ok None
  | _ => v <- convert x ;; Ok (Some v)
  end.

(** ** The window state *)

(** What reaches the Logs tab. *)
Inductive log_entry :=
| Appended (s : str)
| Printed (s : str)
| Traceback (e : exn).

Record app := mkApp {
  fc : pyval;
  gain : pyval;
  ppm : pyval;
  freq_slider : pyval;
  gain_spinbox : pyval;
  ppm_spinbox : pyval;
  flowgraph_starts : nat;
  output_text_edit : list log_entry;
  critical_boxes : list (str * exn);
  imsi_table : QTableWidget
}.

(** The state [IMSIMAP.__init__] sets up. *)
Definition app_init : app :=
  mkApp (VFloat (Fin false 943203831 0)) (VInt 50) (VInt 0)
        (VInt 943203831) (VFloat (Fin false 50 0)) (VFloat (Fin false 0 0))
        0 [] [] imsi_table_init.

Definition log (a : app) (x : log_entry) : app :=
  mkApp (fc a) (gain a) (ppm a) (freq_slider a) (gain_spinbox a)
        (ppm_spinbox a) (flowgraph_starts a) (output_text_edit a ++ [x])
        (critical_boxes a) (imsi_table a).

(** [QMessageBox.critical(self, "Error", f"{msg}{e}")] followed by
    [traceback.print_exc()]. *)
Definition critical (a : app) (msg : str) (e : exn) : app :=
  log (mkApp (fc a) (gain a) (ppm a) (freq_slider a) (gain_spinbox a)
             (ppm_spinbox a) (flowgraph_starts a) (output_text_edit a)
             (critical_boxes a ++ [(msg, e)]) (imsi_table a))
      (Traceback e).

Definition with_table (a : app) (t : QTableWidget) : app :=
  mkApp (fc a) (gain a) (ppm a) (freq_slider a) (gain_spinbox a)
        (ppm_spinbox a) (flowgraph_starts a) (output_text_edit a)
        (critical_boxes a) t.

(** [IMSIMAP.start_capture]; [now] is the formatted time and [start] what
    [grgsm_instance.start()] does. *)
Definition start_capture (a : app) (now : str) (start : result ()) : app :=
  let a1 :=
    log a (Appended (py "Starting IMSI MAP version 1.0 scan at " ++ now)) in
  match start with
  | Ok _ =>
      log (mkApp (fc a1) (gain a1) (ppm a1) (freq_slider a1) (gain_spinbox a1)
                 (ppm_spinbox a1) (S (flowgraph_starts a1))
                 (output_text_edit a1) (critical_boxes a1) (imsi_table a1))
          (Printed (10%N :: py "Capture started"))
  | Raise e =>
      critical a1 (py "An error occurred while starting the capture: ") e
  end.

(** [IMSIMAP.stop_capture]; [stop] is what stopping the flowgraph does. *)
Definition stop_capture (a : app) (stop : result ()) : app :=
  match stop with
  | Ok _ => log a (Printed (10%N :: py "Capture stopped"))
  | Raise e =>
      critical a (py "An error occurred while stopping the capture: ") e
  end.

(** [IMSIMAP.add_row(data)] *)
Definition add_row (t : QTableWidget) (data : list str) : QTableWidget :=
  let row_position := rowCount t in
  let t1 := Table.insertRow t row_position in
  foldl (fun acc '(i, field) => Table.setItem acc row_position i field)
        t1 (enumerate (drop 1 data)).

(** The two slots connected to [output_signal]. *)
Definition on_output (a : app) (line : str) : app :=
  with_table (log a (Appended line)) (update_table (imsi_table a) line).

(** ** Replay *)

Definition params : Type := option pyval * option pyval * option pyval.

(** The [try] body of [extract_params_from_logs]. *)
Definition convert_params {python : Python}
    (logs : gmap str json) : result params :=
  frequency_str <- getitem logs (py "frequency") ;;
  gain_str <- getitem logs (py "gain") ;;
  ppm_str <- getitem logs (py "ppm") ;;
  frequency <- unless_none py_int frequency_str ;;
  gain <- unless_none py_float gain_str ;;
  ppm <- unless_none py_float ppm_str ;;
  Ok (VInt <$> frequency, VFloat <$> gain, VFloat <$> ppm).

(** [IMSIMAP.extract_params_from_logs(logs)]: only [ValueError] and
    [TypeError] are handled here. *)
Definition extract_params_from_logs {python : Python}
    (a : app) (logs : gmap str json)
  : app * result params :=
  match convert_params logs with
  | Raise ValueError =>
      (critical a
         (py "An error occurred while converting parameters to float: ")
         ValueError,
       Ok (None, None, None))
  | Raise TypeError =>
      (critical a
         (py "An error occurred while converting parameters to float: ")
         TypeError,
       Ok (None, None, None))
  | r => (a, r)
  end.

(** [IMSIMAP.set_params_in_context] *)
Definition set_params_in_context (a : app) (frequency gain' ppm' : pyval)
  : app :=
  mkApp frequency gain' ppm' (freq_slider a) (gain_spinbox a) (ppm_spinbox a)
        (flowgraph_starts a) (output_text_edit a) (critical_boxes a)
        (imsi_table a).

(** Does [z] fit the C [int] that [QSlider.setValue] takes? *)
Definition fits_c_int (z : Z) : bool :=
  ((- 2 ^ 31 <=? z) && (z <? 2 ^ 31))%Z.

(** [IMSIMAP.update_spinboxes]: the three [setValue] calls.  The slider takes
    a C [int]: an [int] beyond it raises [OverflowError] before any widget is
    touched, anything but an [int] raises [TypeError].  The three fields
    record the values handed over.  What a widget then does with its value
    (it clamps it to its range, the spin boxes round it, and a change runs
    the slots connected to [valueChanged], which call into the flowgraph
    module) lies outside this file's source and is not represented. *)
Definition update_spinboxes (a : app) (frequency gain' ppm' : pyval)
  : result app :=
  match frequency with
  | VInt z =>
      if fits_c_int z then
        Ok (mkApp (fc a) (gain a) (ppm a) frequency gain' ppm'
                  (flowgraph_starts a) (output_text_edit a) (critical_boxes a)
                  (imsi_table a))
      else Raise OverflowError
  | VFloat _ => Raise TypeError
  end.

(** [IMSIMAP.repeat_scan], from the point where the timestamp of the selected
    entry and the stored document are at hand. *)
Definition repeat_scan {python : Python} (a : app) (timestamp : str)
    (scan_data : gmap str (gmap str json)) (now : str) (start : result ())
  : app :=
  let logs := default ∅ (scan_data !! timestamp) in
  let '(a1, r) := extract_params_from_logs a logs in
  let body : app * result () :=
    match r with
    | Raise e => (a1, Raise e)
    | Ok (Some frequency, Some gain, Some ppm) =>
        let a2 := set_params_in_context a1 frequency gain ppm in
        match update_spinboxes a2 frequency gain ppm with
        | Ok a3 => (start_capture a3 now start, Ok ())
        | Raise e => (a2, Raise e)
        end
    | Ok _ => (a1, Raise ValueError)
    end in
  match body with
  | (a', Ok _) => a'
  | (a', Raise e) =>
      critical a' (py "An error occurred while repeating the scan: ") e
  end.

(** The capture configuration: the three attributes of the flowgraph and the
    values last handed to the three controls that mirror them. *)
Definition configuration (a : app) : list pyval :=
  [fc a; gain a; ppm a; freq_slider a; gain_spinbox a; ppm_spinbox a].

(** Operations of the window that can touch [imsi_table]. *)
Inductive event :=
| StartCapture (now : str) (start : result ())
| StopCapture (stop : result ())
| OutputLine (line : str)
| AddRow (data : list str)
| RepeatScan (timestamp : str) (scan_data : gmap str (gmap str json))
             (now : str) (start : result ()).

Definition step {python : Python} (a : app) (ev : event) : app :=
  match ev with
  | StartCapture now start => start_capture a now start
  | StopCapture stop => stop_capture a stop
  | OutputLine line => on_output a line
  | AddRow data => with_table a (add_row (imsi_table a) data)
  | RepeatScan ts d now start => repeat_scan a ts d now start
  end.

(** ** Files *)

(** What reached a text file: a string given to [write], a row given to
    [csv.writer.writerow], or a piece of one of these that a failing device
    cut short: some of its bytes from the start, possibly none. *)
Inductive written :=
| Text (s : str)
| CsvRow (fields : list str)
| Cut (x : written).

(** The [observations] table of a database file: declared columns, and the
    rows, each pairing the columns named by the [INSERT] with the values
    bound to them ([None] is the null marker).  A row records what the
    statement was given; the storage class SQLite then picks for a bound
    text (a text that reads as a number in a column declared [integer]
    is kept as a number) is SQLite's and is not represented. *)
Record observations := mkObs {
  schema : list (str * str);
  rows : list (list (str * option str))
}.

Inductive file :=
| TextFile (content : list written)
| Database (table : option observations).

(** How a write that does not go through fails: the device refuses the data
    (it is full, a quota is reached), or the row cannot be encoded in the
    encoding of the file, which is the locale's. *)
Inductive fault := DeviceFails | CannotEncode.

(** The file system as the exporter meets it: the files, the paths that
    cannot be opened for writing, how many more writes go through before
    one fails, and how that one fails. *)
Record world := mkWorld {
  files : gmap str file;
  denied : gset str;
  budget : nat;
  failure : fault
}.

(** Can [s] be encoded as UTF-8?  Not with a surrogate code point in it. *)
Definition utf8_encodable (s : str) : bool :=
  forallb (fun c => negb ((55296 <=? c) && (c <=? 57343))%N) s.

Module IO.

(** [open(path, 'w')]: creates or truncates. *)
Definition open_w (w : world) (path : str) : result world :=
  if decide (path ∈ denied w) then Raise OSError
  else Ok (mkWorld (<[path := TextFile []]> (files w)) (denied w) (budget w)
                   (failure w)).

Definition append (x : written) (f : file) : file :=
  match f with
  | TextFile c => TextFile (c ++ [x])
  | Database t => Database t
  end.

(** One [write] or [writerow] on the file opened at [path].  A row that
    cannot be encoded is refused by the call itself, before anything of it
    is buffered, and the [close] that ends the [with] block lets the earlier
    rows through.  What the device refuses comes to light when the buffer is
    handed over, in a later [write] or in that [close], with the data cut at
    some byte; which call raises makes no difference to what is left in the
    file nor to what reaches the caller, so the failure is charged to the
    [write] whose data are cut. *)
Definition write (w : world) (path : str) (x : written) : world * result () :=
  match budget w with
  | 0 =>
      match failure w with
      | DeviceFails =>
          (mkWorld (alter (append (Cut x)) path (files w)) (denied w) 0
                   (failure w),
           Raise OSError)
      | CannotEncode => (w, Raise UnicodeEncodeError)
      end
  | S b =>
      (mkWorld (alter (append x) path (files w)) (denied w) b (failure w),
       Ok ())
  end.

(** A [for] loop of writes; it stops at the first one that raises. *)
Fixpoint write_all (w : world) (path : str) (xs : list written)
  : world * result () :=
  match xs with
  | [] => (w, Ok ())
  | x :: xs' =>
      match write w path x with
      | (w', Ok _) => write_all w' path xs'
      | (w', Raise e) => (w', Raise e)
      end
  end.

(** The characters of a text file made of whole strings only. *)
Fixpoint texts (c : list written) : option str :=
  match c with
  | [] => Some []
  | Text s :: c' => s' ← texts c'; Some (s ++ s')
  | _ => None
  end.

(** A text file of no more than one byte; SQLite takes it for an empty
    database. *)
Definition one_byte_at_most (c : list written) : bool :=
  match texts c with
  | Some [] => true
  | Some [ch] => (ch <? 128)%N
  | _ => false
  end.

(** [sqlite3.connect(path)]: a missing file is created, empty. *)
Definition connect (w : world) (path : str) : result world :=
  match files w !! path with
  | Some _ => Ok w
  | None =>
      if decide (path ∈ denied w) then Raise DatabaseError
      else Ok (mkWorld (<[path := Database None]> (files w)) (denied w)
                       (budget w) (failure w))
  end.

(** The [observations] table of the database at [path], if it has one. *)
Definition table (w : world) (path : str) : option observations :=
  match files w !! path with
  | Some (Database (Some o)) => Some o
  | _ => None
  end.

(** The table a database open for writing holds at [path]; a missing or
    empty file is an empty database. *)
Definition db_table (w : world) (path : str) : result (option observations) :=
  if decide (path ∈ denied w) then Raise DatabaseError
  else match files w !! path with
       | None => Ok None
       | Some (TextFile c) =>
           if one_byte_at_most c then Ok None else Raise DatabaseError
       | Some (Database t) => Ok t
       end.

(** One statement that writes: it uses up one operation of the budget, and
    raises when the device takes no more.  (What a statement binds is
    encoded as UTF-8 whatever the locale: see [bindable].) *)
Definition spend (w : world) : result world :=
  match budget w with
  | 0 => Raise DatabaseError
  | S b => Ok (mkWorld (files w) (denied w) b (failure w))
  end.

Definition store (w : world) (path : str) (t : observations) : world :=
  mkWorld (<[path := Database (Some t)]> (files w)) (denied w) (budget w)
          (failure w).

(** [CREATE TABLE IF NOT EXISTS observations(...)], outside a transaction.
    With the table there nothing is written, so that even a database that
    cannot be written passes. *)
Definition create_if_absent (w : world) (path : str)
    (columns : list (str * str)) : result world :=
  match table w path with
  | Some _ => Ok w
  | None =>
      _ <- db_table w path ;;
      w1 <- spend w ;;
      Ok (store w1 path (mkObs columns []))
  end.

(** Column names are compared without regard to the case of ASCII letters. *)
Definition declares (declared : list str) (name : str) : bool :=
  bool_decide (map Num.lower name ∈ map (map Num.lower) declared).

(** The values of one [INSERT] can be bound when each text encodes as
    UTF-8. *)
Definition bindable (d : list (option str)) : bool :=
  forallb (fun v => match v with
                    | Some s => utf8_encodable s
                    | None => true
                    end) d.

(** The [INSERT] statements of the loop, held in the open transaction.  Each
    is compiled against the table, which must declare the columns it names;
    then its values are bound, as many as it has placeholders; then it
    runs, which takes a database that can be written. *)
Fixpoint insert_all (w : world) (path : str) (declared names : list str)
    (pending : list (list (str * option str)))
    (data : list (list (option str)))
  : world * result (list (list (str * option str))) :=
  match data with
  | [] => (w, Ok pending)
  | d :: data' =>
      if negb (forallb (declares declared) names) then (w, Raise DatabaseError)
      else if negb (bool_decide (length d = length names))
      then (w, Raise DatabaseError)
      else if negb (bindable d) then (w, Raise UnicodeEncodeError)
      else if decide (path ∈ denied w) then (w, Raise DatabaseError)
      else
        match spend w with
        | Ok w' =>
            insert_all w' path declared names (pending ++ [zip names d]) data'
        | Raise e => (w, Raise e)
        end
  end.

(** [commit()]: the pending rows reach the file; without an [INSERT] there
    is no transaction to commit. *)
Definition commit (w : world) (path : str)
    (pending : list (list (str * option str))) : world * result () :=
  match pending with
  | [] => (w, Ok ())
  | _ :: _ =>
      match spend w, table w path with
      | Ok w', Some t =>
          (store w' path (mkObs (schema t) (rows t ++ pending)), Ok ())
      | Raise e, _ => (w, Raise e)
      | Ok _, None => (w, Raise DatabaseError)
      end
  end.

End IO.

(** ** [export_table] *)

(** [[t.horizontalHeaderItem(i).text() for i in range(t.columnCount())]];
    the labels are those set in [__init__], and a column without a header
    item has no [text]. *)
Fixpoint header_texts (labels : list str) (i n : nat) : result (list str) :=
  match n with
  | 0 => Ok []
  | S n' =>
      match labels !! i with
      | Some h => hs <- header_texts labels (S i) n' ;; Ok (h :: hs)
      | None => Raise AttributeError
      end
  end.

Definition header_row (t : QTableWidget) : result (list str) :=
  header_texts header_labels 0 (columnCount t).

(** [[t.item(row, col).text() if t.item(row, col) else '' for col in ...]] *)
Definition row_texts (t : QTableWidget) (row : nat) : list str :=
  map (Table.text t row) (seq 0 (columnCount t)).

(** [[t.item(row, col).text() if t.item(row, col) else None for col in ...]] *)
Definition row_data (t : QTableWidget) (row : nat) : list (option str) :=
  map (Table.item t row) (seq 0 (columnCount t)).

Definition tab : str := [9%N].
Definition newline : str := [10%N].

Definition csv_lines (t : QTableWidget) (header : list str) : list written :=
  CsvRow header :: map (fun r => CsvRow (row_texts t r)) (seq 0 (rowCount t)).

Definition txt_lines (t : QTableWidget) (header : list str) : list written :=
  Text (PyStr.join tab header ++ newline)
  :: map (fun r => Text (PyStr.join tab (row_texts t r) ++ newline))
         (seq 0 (rowCount t)).

(** The column list of the [CREATE TABLE] statement. *)
Definition observations_schema : list (str * str) :=
  [(py "stamp", py "datetime"); (py "tmsi1", py "text");
   (py "tmsi2", py "text"); (py "imsi", py "text");
   (py "imsicountry", py "text"); (py "imsibrand", py "text");
   (py "imsioperator", py "text"); (py "mcc", py "integer");
   (py "mnc", py "integer"); (py "lac", py "integer");
   (py "cell", py "integer")].

(** The column list of the [INSERT] statement. *)
Definition insert_columns : list str :=
  map py ["stamp"; "tmsi1"; "tmsi2"; "imsi"; "imsicountry"; "imsibrand";
          "imsioperator"; "mcc"; "mnc"; "lac"; "cell"]%string.

(** The body of a [with open(file_name, 'w') as f:] that writes a header
    and then the rows. *)
Definition export_text (w : world) (t : QTableWidget) (file_name : str)
    (lines : list str → list written) : world * result () :=
  match IO.open_w w file_name with
  | Raise e => (w, Raise e)
  | Ok w1 =>
      match header_row t with
      | Raise e => (w1, Raise e)
      | Ok header => IO.write_all w1 file_name (lines header)
      end
  end.

(** The [.sqlite] branch.  The connection is not closed when a statement
    raises; the pending rows are then dropped with it.  While it writes,
    SQLite keeps a rollback journal beside the database, under the name of
    the database followed by [-journal], and removes it; a file that is
    already there under that name is SQLite's to replay or delete, which is
    not represented. *)
Definition export_sqlite (w : world) (t : QTableWidget) (file_name : str)
  : world * result () :=
  match IO.connect w file_name with
  | Raise e => (w, Raise e)
  | Ok w0 =>
      match IO.create_if_absent w0 file_name observations_schema with
      | Raise e => (w0, Raise e)
      | Ok w1 =>
          let declared :=
            match IO.table w1 file_name with
            | Some o => map fst (schema o)
            | None => []
            end in
          match IO.insert_all w1 file_name declared insert_columns []
                  (map (row_data t) (seq 0 (rowCount t))) with
          | (w2, Raise e) => (w2, Raise e)
          | (w2, Ok pending) => IO.commit w2 file_name pending
          end
      end
  end.

(** [IMSIMAP.export_table], given the name the file dialog returned.  The
    result tells whether the "Success" box was shown. *)
Definition export_table (w : world) (t : QTableWidget) (file_name : str)
  : world * result bool :=
  if bool_decide (file_name = []) then (w, Ok false)
  else
    let '(w', r) :=
      if PyStr.endswith (py ".csv") file_name
      then export_text w t file_name (csv_lines t)
      else if PyStr.endswith (py ".txt") file_name
      then export_text w t file_name (txt_lines t)
      else if PyStr.endswith (py ".sqlite") file_name
      then export_sqlite w t file_name
      else (w, Ok ()) in
    (w', _ <- r ;; Ok true).

(** ** The saved-session dialog *)

(** [IMSITableDialog.add_row(fields)] *)
Definition dialog_add_row (t : QTableWidget) (fields : list str)
  : QTableWidget :=
  let row_position := rowCount t in
  let t1 := Table.insertRow t row_position in
  foldl (fun acc '(i, field) =>
           Table.setItem acc row_position i (PyStr.strip field))
        t1 (enumerate (drop 1 fields)).

(** One turn of the loop of [IMSITableDialog.populate_table]. *)
Definition populate_line (t : QTableWidget) (line : str) : QTableWidget :=
  if record_bearing line
  then dialog_add_row t (PyStr.split (chr ";") line)
  else t.

(** [IMSITableDialog.populate_table(logs)] *)
Definition populate_table (t : QTableWidget) (logs : str) : QTableWidget :=
  foldl populate_line t (PyStr.split 10%N logs).

(** ** Vocabulary of the statements *)

(** The text a line of bytes stands for once ill-formed sequences are
    dropped and the blanks around it removed. *)
Definition line_text (b : bytes) : str :=
  match utf8_decode Ignore b with
  | Ok s => PyStr.strip s
  | Raise _ => []
  end.

(** A stored value that reads as a number. *)
Definition parses_as_number {python : Python} (x : json) : bool :=
  match x with
  | JInt _ | JFloat _ | JBool _ => true
  | JStr s => match Num.float_of_str s with Ok _ => true | Raise _ => false end
  | JNull | JArr _ | JObj _ => false
  end.

(** A session entry that is absent, or present but not a number. *)
Definition unusable {python : Python} (o : option json) : Prop :=
  match o with
  | None => True
  | Some x => parses_as_number x = false
  end.

(** A finite float that is not a whole number. *)
Definition fractional (f : pyfloat) : bool :=
  match f with
  | Fin _ m e => (e <? 0)%Z && negb (m mod 10 ^ Z.to_N (- e) =? 0)%N
  | Inf _ | NaN => false
  end.

(** A launch after which the line sequence of [runProcess] ends. *)
Definition sequence_ends (l : launch) : Prop := (runProcess l).2 = true.

(** Every cell text of the table can be bound to an [INSERT]: none holds a
    surrogate code point. *)
Definition bindable_rows (t : QTableWidget) : bool :=
  forallb IO.bindable (map (row_data t) (seq 0 (rowCount t))).

(** The rows a database file holds in [observations]. *)
Definition stored_rows (w : world) (path : str) : list (list (str * option str)) :=
  match files w !! path with
  | Some (Database (Some o)) => rows o
  | _ => []
  end.

(** ** The session store *)

(** What is on disk under [logs/]: no directory, a directory without
    [scan_data.json], or the document last dumped there ([json.load] gives
    back what [json.dump] was given). *)
Inductive disk :=
| NoDir
| EmptyDir
| Stored (doc : gmap str (gmap str json)).

(** [IMSIMAP.load_scan_data]: the directory is created when missing. *)
Definition load_scan_data (d : disk) : disk * gmap str (gmap str json) :=
  match d with
  | NoDir | EmptyDir => (EmptyDir, ∅)
  | Stored doc => (d, doc)
  end.

(** [IMSIMAP.save_scan_data]: [open('logs/scan_data.json', 'w')] needs the
    directory. *)
Definition save_scan_data (d : disk) (scan_data : gmap str (gmap str json))
  : result disk :=
  match d with
  | NoDir => Raise OSError
  | EmptyDir | Stored _ => Ok (Stored scan_data)
  end.

(** A number of the flowgraph as [json.dump] and [json.load] carry it. *)
Definition to_json (v : pyval) : json :=
  match v with
  | VInt z => JInt z
  | VFloat f => JFloat f
  end.

(** The entry [add_new_scan] stores; [logs] is what
    [output_text_edit.toPlainText()] returns. *)
Definition session_of (a : app) (logs : str) : gmap str json :=
  <[py "frequency" := to_json (fc a)]>
    (<[py "ppm" := to_json (ppm a)]>
       (<[py "gain" := to_json (gain a)]>
          (<[py "logs" := JStr logs]> ∅))).

(** The Scans tab: the rows of [scan_model], and the disk. *)
Record scans := mkScans {
  scan_model : list str;
  store : disk
}.

(** [re.search(r"Scan at (.+?) on", text)]: the group, tried lazily from one
    character on, none of them a newline, up to the first " on". *)
Fixpoint lazy_group (s : str) : option str :=
  match s with
  | [] => None
  | c :: s' =>
      if (c =? 10)%N then None
      else if PyStr.startswith (py " on") s' then Some [c]
      else g ← lazy_group s'; Some (c :: g)
  end.

Fixpoint search_scan_at (text : str) : option str :=
  match (if PyStr.startswith (py "Scan at ") text
         then lazy_group (drop 8 text) else None) with
  | Some g => Some g
  | None =>
      match text with
      | [] => None
      | _ :: text' => search_scan_at text'
      end
  end.

(** [re.search(timestamp_pattern, selected_text).group(1)]; without a match
    [re.search] returns [None], which has no [group]. *)
Definition scan_timestamp (selected_text : str) : result str :=
  match search_scan_at selected_text with
  | Some g => Ok g
  | None => Raise AttributeError
  end.

Section Scans.

(** How an f-string renders a number of the flowgraph. *)
Variable render : pyval → str.

(** [f"Scan at {formatted_time} on {frequency} Hz"] *)
Definition scan_label (formatted_time : str) (frequency : pyval) : str :=
  py "Scan at " ++ formatted_time ++ py " on " ++ render frequency ++ py " Hz".

(** [IMSIMAP.add_new_scan]; [now] is the formatted time and [logs] the text
    of the Logs tab. *)
Definition add_new_scan (a : app) (now logs : str) (s : scans)
  : scans * result () :=
  let model := scan_model s ++ [scan_label now (fc a)] in
  let '(d1, scan_data) := load_scan_data (store s) in
  match save_scan_data d1 (<[now := session_of a logs]> scan_data) with
  | Ok d2 => (mkScans model d2, Ok ())
  | Raise e => (mkScans model d1, Raise e)
  end.

End Scans.

Definition no_logs : json := JStr (py "No logs available.").

(** [IMSIMAP.view_log]: what the dialog is given to show. *)
Definition view_log (d : disk) (selected_text : str) : disk * result json :=
  match scan_timestamp selected_text with
  | Raise e => (d, Raise e)
  | Ok timestamp =>
      let '(d1, scan_data) := load_scan_data d in
      (d1, Ok (default no_logs
                 (default ∅ (scan_data !! timestamp) !! py "logs")))
  end.

(** [IMSIMAP.view_table]: the table the dialog builds; a value that is not a
    [str] has no [split]. *)
Definition view_table (d : disk) (selected_text : str)
  : disk * result QTableWidget :=
  match view_log d selected_text with
  | (d1, Ok (JStr logs)) =>
      (d1, Ok (populate_table (mkTable (length header_labels) 0 []) logs))
  | (d1, Ok _) => (d1, Raise AttributeError)
  | (d1, Raise e) => (d1, Raise e)
  end.

(** [IMSIMAP.repeat_scan] in full: the timestamp is read off the selected
    entry and the document loaded inside the [try]. *)
Definition repeat_scan_selected {python : Python}
    (a : app) (d : disk) (selected_text : str)
    (now : str) (start : result ()) : app * disk :=
  match scan_timestamp selected_text with
  | Raise e =>
      (critical a (py "An error occurred while repeating the scan: ") e, d)
  | Ok timestamp =>
      let '(d1, scan_data) := load_scan_data d in
      (repeat_scan a timestamp scan_data now start, d1)
  end.

(** A key that can be read back from its label: not empty, no newline, and
    no " on" that starts after its first character, one that would run into
    the label's own " on" included. *)
Definition readable_key (timestamp : str) : bool :=
  negb (bool_decide (timestamp = []))
  && negb (bool_decide (10%N ∈ timestamp))
  && negb (PyStr.contains (py " on") (drop 1 (timestamp ++ py " o"))).

(** The lines of bytes [runProcess] yields. *)
Definition stdout_lines (l : launch) : list bytes :=
  omap (fun y => match y with YBytes b => Some b | YStr _ => None end)
       (runProcess l).1.

(** ** [export_data] *)

Section ExportData.

(** How an f-string renders [params.get(key)], a stored value or [None]. *)
Variable show : option json → str.

(** What [export_data] writes before the log text. *)
Definition export_data_head (timestamp : str) (params : gmap str json)
  : list written :=
  [Text (py "Timestamp: " ++ timestamp ++ newline);
   Text (py "Frequency: " ++ show (params !! py "frequency") ++ newline);
   Text (py "PPM: " ++ show (params !! py "ppm") ++ newline);
   Text (py "Gain: " ++ show (params !! py "gain") ++ newline);
   Text (py "Logs:" ++ newline)].

(** What it writes after the log text: a title, then the live table. *)
Definition export_data_tail (t : QTableWidget) : list written :=
  Text (newline ++ py "Captured IMSIs:" ++ newline)
  :: map (fun r => Text (PyStr.join tab (row_texts t r) ++ newline))
         (seq 0 (rowCount t)).

(** [IMSIMAP.export_data]: nothing here is caught.  [f.write(logs)] needs a
    [str].  The result tells whether the "Success" box was shown. *)
Definition export_data (w : world) (d : disk) (t : QTableWidget)
    (selected_text : str) : world * disk * result bool :=
  match scan_timestamp selected_text with
  | Raise e => (w, d, Raise e)
  | Ok timestamp =>
      let '(d1, scan_data) := load_scan_data d in
      let params := default ∅ (scan_data !! timestamp) in
      let logs := default no_logs (params !! py "logs") in
      let path := py "exported_scan_data_" ++ timestamp ++ py ".txt" in
      match IO.open_w w path with
      | Raise e => (w, d1, Raise e)
      | Ok w1 =>
          match IO.write_all w1 path (export_data_head timestamp params) with
          | (w2, Raise e) => (w2, d1, Raise e)
          | (w2, Ok _) =>
              match logs with
              | JStr text =>
                  match IO.write_all w2 path
                          (Text text :: export_data_tail t) with
                  | (w3, Raise e) => (w3, d1, Raise e)
                  | (w3, Ok _) => (w3, d1, Ok true)
                  end
              | _ => (w2, d1, Raise TypeError)
              end
          end
      end
  end.

End ExportData.

(* ================================================================== *)
(** * Properties *)
(* ================================================================== *)

(** ** Sample evaluations *)

Example split_keeps_empty_fields :
  PyStr.split (chr ";") (py "a;;b;") = [py "a"; []; py "b"; []].
Proof. reflexivity. Qed.

Example strip_both_ends : PyStr.strip (9%N :: py " a b " ++ [10%N]) = py "a b".
Proof. reflexivity. Qed.

Example decode_euro_sign : utf8_decode Strict [xe2; x82; xac] = Ok [8364%N].
Proof. reflexivity. Qed.

Example decode_truncated_tail :
  utf8_decode Replace [x61; xe2; x82] = Ok [97%N; 65533%N].
Proof. reflexivity. Qed.

Example decode_surrogate_is_ill_formed :
  utf8_decode Strict [xed; xa0; x80] = Raise UnicodeDecodeError.
Proof. reflexivity. Qed.

Example int_of_str_blanks_and_underscore :
  Num.int_of_str (py " +1_000 ") = Ok 1000%Z.
Proof. reflexivity. Qed.

Example int_of_str_double_underscore :
  Num.int_of_str (py "1__0") = Raise ValueError.
Proof. reflexivity. Qed.

Example float_of_str_numeral :
  Num.float_of_str (py "-1_0.5e-3") = Ok (Fin true 105 (-4)).
Proof. reflexivity. Qed.

Example float_of_str_overflow : Num.float_of_str (py "1e400") = Ok (Inf false).
Proof. vm_compute. reflexivity. Qed.

Example float_of_str_lone_point : Num.float_of_str (py ".") = Raise ValueError.
Proof. reflexivity. Qed.

Example int_of_float_truncates :
  Num.int_of_float (Fin true 9432038315 (-1)) = Ok (-943203831)%Z.
Proof. reflexivity. Qed.

(** A replay whose frequency is beyond a C [int]: the three values are
    already set in the flowgraph when the slider refuses the frequency; the
    replay ends in an error box and starts no capture. *)
Example repeat_scan_slider_overflow :
  let session : gmap str json :=
    <[py "frequency" := JInt 3000000000]>
      (<[py "gain" := JStr (py "40.5")]> (<[py "ppm" := JInt 3]> ∅)) in
  let a' := repeat_scan app_init (py "t") (<[py "t" := session]> ∅)
              (py "now") (Ok ()) in
  configuration a'
  = [VInt 3000000000; VFloat (Fin false 405 (-1)); VFloat (Fin false 3 0);
     VInt 943203831; VFloat (Fin false 50 0); VFloat (Fin false 0 0)]
  ∧ flowgraph_starts a' = 0
  ∧ critical_boxes a'
    = [(py "An error occurred while repeating the scan: ", OverflowError)].
Proof. vm_compute. by repeat split. Qed.

(** Blanks and digits beyond ASCII, as [int] and [float] take them: a
    no-break space is skipped, a file separator is not, Arabic-Indic digits
    count, and [int] stops at 4300 digits. *)
Example int_of_str_beyond_ascii :
  Num.int_of_str ([160%N] ++ py "5") = Ok 5%Z
  ∧ Num.int_of_str ([28%N] ++ py "5") = Raise ValueError
  ∧ Num.float_of_str (py "1.5" ++ [28%N]) = Raise ValueError
  ∧ Num.float_of_str [1636%N; 1632%N] = Ok (Fin false 40 0)
  ∧ Num.int_of_str (replicate 4300 (chr "1")) ≠ Raise ValueError
  ∧ Num.int_of_str (replicate 4301 (chr "1")) = Raise ValueError.
Proof. vm_compute. by repeat split. Qed.

(** ** Text helpers *)

Lemma split_length c s : length (PyStr.split c s) = S (PyStr.count c s).
Proof.
  induction s as [|x s IH]; simpl; [done|].
  destruct (x =? c)%N; simpl; [by rewrite IH|].
  destruct (PyStr.split c s); simpl in *; lia.
Qed.

Lemma record_bearing_false line :
  line = [] ∨ PyStr.contains (py "CellId") line = true
  ∨ PyStr.count (chr ";") line < 6 →
  record_bearing line = false.
Proof.
  unfold record_bearing. intros [-> | [H | H]].
  - reflexivity.
  - rewrite H. apply andb_false_r.
  - rewrite bool_decide_eq_false_2; [done | lia].
Qed.

(** ** The table *)

Lemma paint_length fs : ∀ k row, length (paint k fs row) = length row.
Proof.
  unfold paint. induction fs as [|f fs IH]; intros k row; simpl; [done|].
  by rewrite IH, length_insert.
Qed.

Lemma paint_lookup fs : ∀ k row c,
  c < length row →
  paint k fs row !! c =
    if decide (k ≤ c < k + length fs) then Some (fs !! (c - k)) else row !! c.
Proof.
  unfold paint. induction fs as [|f fs IH]; intros k row c Hc; simpl.
  - case_decide; [lia | done].
  - rewrite IH by (by rewrite length_insert).
    destruct (decide (c = k)) as [->|Hne].
    + rewrite list_lookup_insert_eq by done.
      rewrite Nat.sub_diag. simpl.
      repeat case_decide; (done || lia).
    + rewrite list_lookup_insert_ne by done.
      repeat case_decide; try (done || lia).
      replace (c - k) with (S (c - S k)) by lia. done.
Qed.

(** Writing into the last row of a table: the items of the earlier rows,
    [items], followed by the cells of the last one. *)
Section LastRow.

Variables (cc rc : nat) (items : list (option str)).
Hypothesis Hitems : length items = rc * cc.

Lemma setItem_last_row row k f :
  length row = cc →
  Table.setItem (mkTable cc (S rc) (items ++ row)) rc k f
  = mkTable cc (S rc) (items ++ <[k := Some f]> row).
Proof.
  intros Hr. unfold Table.setItem, Table.tableIndex. simpl.
  rewrite length_app, Hitems, Hr.
  case_decide as Hk.
  - f_equal. rewrite <- Hitems. by rewrite insert_app_r.
  - by rewrite (list_insert_ge row) by lia.
Qed.

Lemma fill_last_row fs : ∀ k row,
  length row = cc →
  foldl (fun acc '(i, field) => Table.setItem acc rc i field)
        (mkTable cc (S rc) (items ++ row)) (enumerate_from k fs)
  = mkTable cc (S rc) (items ++ paint k fs row).
Proof.
  induction fs as [|f fs IH]; intros k row Hr; simpl; [done|].
  rewrite setItem_last_row by done.
  rewrite IH by (by rewrite length_insert).
  done.
Qed.

End LastRow.

Lemma insertRow_end t :
  Table.wf t →
  Table.insertRow t (rowCount t)
  = mkTable (columnCount t) (S (rowCount t))
            (tableItems t ++ replicate (columnCount t) None).
Proof.
  intros Hwf. unfold Table.insertRow, Table.tableIndex.
  rewrite decide_True by lia. f_equal.
  rewrite Nat.add_0_r, <- Hwf.
  by rewrite firstn_all, drop_all, app_nil_r.
Qed.

(** What [update_table] does with a record-bearing line: one row is added
    after the existing ones and filled from the fields after the first. *)
Lemma update_table_record t line :
  Table.wf t → record_bearing line = true →
  update_table t line
  = mkTable (columnCount t) (S (rowCount t))
      (tableItems t
       ++ paint 0 (drop 1 (PyStr.split (chr ";") line))
                (replicate (columnCount t) None)).
Proof.
  intros Hwf Hrb. unfold update_table. rewrite Hrb. simpl.
  rewrite insertRow_end by done.
  unfold enumerate. apply fill_last_row; [done | by rewrite length_replicate].
Qed.

Lemma update_table_skip t line :
  record_bearing line = false → update_table t line = t.
Proof. intros H. unfold update_table. by rewrite H. Qed.

Lemma update_table_wf t line : Table.wf t → Table.wf (update_table t line).
Proof.
  intros Hwf. destruct (record_bearing line) eqn:Hrb.
  - rewrite update_table_record by done. unfold Table.wf in *. simpl.
    rewrite length_app, paint_length, length_replicate. lia.
  - by rewrite update_table_skip.
Qed.

Lemma update_table_old_rows t line r c :
  Table.wf t → r < rowCount t →
  Table.item (update_table t line) r c = Table.item t r c.
Proof.
  intros Hwf Hr. destruct (record_bearing line) eqn:Hrb.
  - rewrite update_table_record by done.
    unfold Table.item, Table.tableIndex. simpl.
    destruct (decide (c < columnCount t)) as [Hc|Hc].
    + rewrite !decide_True by lia.
      rewrite lookup_app_l; [done|]. rewrite Hwf. nia.
    + by rewrite !decide_False by lia.
  - by rewrite update_table_skip.
Qed.

Lemma update_table_new_row t line c :
  Table.wf t → record_bearing line = true → c < columnCount t →
  Table.item (update_table t line) (rowCount t) c
  = drop 1 (PyStr.split (chr ";") line) !! c.
Proof.
  intros Hwf Hrb Hc. rewrite update_table_record by done.
  unfold Table.item, Table.tableIndex. simpl.
  rewrite decide_True by lia.
  rewrite lookup_app_r by (rewrite Hwf; lia).
  replace (rowCount t * columnCount t + c - length (tableItems t)) with c
    by (rewrite Hwf; lia).
  rewrite paint_lookup by (by rewrite length_replicate).
  case_decide as Hin; simpl.
  - by rewrite Nat.sub_0_r.
  - rewrite lookup_replicate_2 by done. simpl.
    symmetry. apply lookup_ge_None. lia.
Qed.

(** ** Decoding *)

Lemma utf8_step_shrinks bs :
  match utf8_step bs with
  | Eof => bs = []
  | Char _ rest | Bad rest => length rest < length bs
  end.
Proof.
  unfold utf8_step.
  repeat (case_match; simplify_eq; simpl in *; try done; try lia).
Qed.

(** More fuel than the length of the input changes nothing. *)
Lemma utf8_decode_loop_enough h n : ∀ m bs,
  length bs ≤ n → length bs ≤ m →
  utf8_decode_loop h n bs = utf8_decode_loop h m bs.
Proof.
  induction n as [|n IH]; intros m bs Hn Hm.
  - destruct bs; [|simpl in Hn; lia]. by destruct m.
  - destruct m as [|m].
    + destruct bs; [done | simpl in Hm; lia].
    + simpl. pose proof (utf8_step_shrinks bs) as Hs.
      destruct (utf8_step bs); [done | |];
        by rewrite (IH m) by lia.
Qed.

(** The decoder, one scalar value at a time. *)
Lemma utf8_decode_unfold h bs :
  utf8_decode h bs =
    match utf8_step bs with
    | Eof => Ok []
    | Char c rest => s <- utf8_decode h rest ;; Ok (c :: s)
    | Bad rest => on_error h (utf8_decode h rest)
    end.
Proof.
  unfold utf8_decode. pose proof (utf8_step_shrinks bs) as Hs.
  destruct bs as [|b bs]; [done|].
  change (length (b :: bs)) with (S (length bs)) in *.
  remember (b :: bs) as input.
  change (utf8_decode_loop h (S (length bs)) input)
    with (match utf8_step input with
          | Eof => Ok []
          | Char c rest => s <- utf8_decode_loop h (length bs) rest ;; Ok (c :: s)
          | Bad rest => on_error h (utf8_decode_loop h (length bs) rest)
          end).
  destruct (utf8_step input) as [|c rest|rest]; [done | |];
    by rewrite (utf8_decode_loop_enough h (length bs) (length rest)) by lia.
Qed.

Lemma utf8_ignore_total_loop n : ∀ bs, ∃ s, utf8_decode_loop Ignore n bs = Ok s.
Proof.
  induction n as [|n IH]; intros bs; simpl; [by eexists|].
  destruct (utf8_step bs) as [|c rest|rest]; [by eexists | |].
  - destruct (IH rest) as [s ->]. by eexists.
  - apply IH.
Qed.

Lemma utf8_ignore_total bs : ∃ s, utf8_decode Ignore bs = Ok s.
Proof. apply utf8_ignore_total_loop. Qed.

Lemma utf8_strict_ignore_loop n : ∀ bs s,
  utf8_decode_loop Strict n bs = Ok s → utf8_decode_loop Ignore n bs = Ok s.
Proof.
  induction n as [|n IH]; intros bs s; simpl; [done|].
  destruct (utf8_step bs) as [|c rest|rest]; [done | | done].
  destruct (utf8_decode_loop Strict n rest) as [s'|e] eqn:Hs; [|done].
  by rewrite (IH _ _ Hs).
Qed.

Lemma utf8_strict_raises_loop n : ∀ bs e,
  utf8_decode_loop Strict n bs = Raise e → e = UnicodeDecodeError.
Proof.
  induction n as [|n IH]; intros bs e; simpl; [done|].
  destruct (utf8_step bs) as [|c rest|rest]; [done | | by intros [= <-]].
  destruct (utf8_decode_loop Strict n rest) as [s'|e'] eqn:Hs; [done|].
  simpl. intros [= <-]. by eapply IH.
Qed.

(** The reader's two-step decoding always yields the text of the line. *)
Lemma decode_line_bytes b : decode_line (YBytes b) = Ok (line_text b).
Proof.
  unfold decode_line, line_text, decode, utf8_decode.
  destruct (utf8_ignore_total b) as [s Hs]. unfold utf8_decode in Hs.
  destruct (utf8_decode_loop Strict (length b) b) as [s'|e] eqn:Hstrict.
  - apply utf8_strict_ignore_loop in Hstrict. by rewrite Hstrict.
  - apply utf8_strict_raises_loop in Hstrict as ->. by rewrite Hs.
Qed.

(** ** The line sequence of [runProcess] *)

Lemma on_exit_cases rc err :
  on_exit rc err =
    if decide (rc ≠ 0%Z ∧ line_text err ≠ [])
    then [YStr (py "Error: " ++ line_text err)] else [].
Proof.
  unfold on_exit, line_text.
  destruct (utf8_ignore_total err) as [s ->].
  repeat case_decide; (done || tauto).
Qed.

Lemma runProcess_loop_exit err rc line after : ∀ before,
  Forall (fun t : option Z * bytes => t.1 = None) before →
  runProcess_loop err (before ++ (Some rc, line) :: after)
  = (map (fun t => YBytes t.2) before ++ YBytes line :: on_exit rc err, true).
Proof.
  induction before as [|[o l] before IH]; intros Hb; simpl; [done|].
  apply Forall_cons in Hb as [Ho Hb]. simpl in Ho. subst o.
  by rewrite IH.
Qed.

(** Only the last thing yielded can be a [str]. *)
Lemma runProcess_shape l :
  ∃ bs tl, (runProcess l).1 = map YBytes bs ++ tl
           ∧ (tl = [] ∨ ∃ s, tl = [YStr s]).
Proof.
  destruct l as [d|[ts err]]; simpl.
  - exists [], [YStr (py "Exception: " ++ d)]. split; [done|]. right. by eexists.
  - induction ts as [|[[rc|] line] ts IH]; simpl.
    + exists [], []. by split; [|left].
    + exists [line], (on_exit rc err). split; [done|].
      rewrite on_exit_cases. case_decide; [right; by eexists | by left].
    + destruct IH as (bs & tl & Heq & Htl).
      destruct (runProcess_loop err ts) as [ys fin]. simpl in *. subst ys.
      by exists (line :: bs), tl.
Qed.

(** ** The reader loop *)

Lemma read_lines_bytes tl : ∀ bs,
  read_lines (map YBytes bs ++ tl)
  = (filter (fun d => worth_emitting d = true) (map line_text bs)
       ++ (read_lines tl).1,
     (read_lines tl).2).
Proof.
  induction bs as [|b bs IH]; simpl.
  - by destruct (read_lines tl).
  - rewrite decode_line_bytes, IH. simpl.
    rewrite filter_cons. by destruct (worth_emitting (line_text b)).
Qed.

Lemma read_lines_delivers l b :
  YBytes b ∈ (runProcess l).1 → worth_emitting (line_text b) = true →
  line_text b ∈ (read_lines (runProcess l).1).1.
Proof.
  intros Hin Hw. destruct (runProcess_shape l) as (bs & tl & Heq & Htl).
  rewrite Heq in *. rewrite read_lines_bytes. simpl.
  apply elem_of_app. left. apply list_elem_of_filter. split; [done|].
  apply list_elem_of_fmap. exists b. split; [done|].
  apply elem_of_app in Hin as [Hin|Hin].
  - apply list_elem_of_fmap in Hin as (b' & [= ->] & Hb'). done.
  - destruct Htl as [->|[s ->]]; [by apply elem_of_nil in Hin|].
    apply list_elem_of_singleton in Hin. done.
Qed.

Lemma run_cons_ends l env :
  sequence_ends l →
  run (l :: env)
  = mkReader (S (launches (run env)))
      ((read_lines (runProcess l).1).1 ++ emitted (run env))
      (phase (run env)).
Proof.
  unfold sequence_ends. intros Hend. simpl.
  destruct (runProcess l) as [ys fin]. simpl in *. subst fin.
  by destruct (read_lines ys).
Qed.

Lemma run_all_end env :
  Forall sequence_ends env →
  launches (run env) = length env ∧ phase (run env) = Relaunching.
Proof.
  induction 1 as [|l env Hl _ [IHn IHp]]; [done|].
  rewrite run_cons_ends by done. simpl. by rewrite IHn.
Qed.

Lemma run_delivers env : ∀ l b,
  Forall sequence_ends env → l ∈ env →
  YBytes b ∈ (runProcess l).1 → worth_emitting (line_text b) = true →
  line_text b ∈ emitted (run env).
Proof.
  intros l b Hall. revert l.
  induction Hall as [|l' env Hl' _ IH]; intros l Hin Hy Hw.
  - by apply elem_of_nil in Hin.
  - rewrite run_cons_ends by done. simpl. apply elem_of_app.
    apply elem_of_cons in Hin as [->|Hin].
    + left. by apply read_lines_delivers.
    + right. by eapply IH.
Qed.

(** C1 (as stated, refuted).  A process that exits with status 1 and "boom"
    on its standard error: [runProcess] does yield the synthetic line, yet
    the reader launches the command a second time on its own, and the
    synthetic line is not among the lines it emitted. *)
Lemma reader_restarts_after_exit :
  let p := mkProcess [(Some 1%Z, [])] (list_byte_of_string "boom") in
  let r := run [Launched p; Launched p] in
  sequence_ends (Launched p)
  ∧ YStr (py "Error: boom") ∈ (runProcess (Launched p)).1
  ∧ ¬ launches r ≤ 1
  ∧ py "Error: boom" ∉ emitted r.
Proof.
  vm_compute. split; [done|]. split; [|split].
  - apply elem_of_cons. right. apply elem_of_cons. by left.
  - lia.
  - intros H. by apply elem_of_nil in H.
Qed.

(** C1 (amended).  [OutputReader.run] loops without condition: whenever the
    line sequence of [runProcess] ends, whether the process exited or could
    not be launched, the command is launched again with no operator action,
    so [n] ended sequences mean [n] launches and the reader is about to
    launch once more.  Every line of bytes read from those processes whose
    text is non-empty and free of "CellId" is emitted to the consumer. *)
Theorem reader_launches_again (env : list launch) :
  Forall sequence_ends env →
  launches (run env) = length env
  ∧ phase (run env) = Relaunching
  ∧ ∀ l b, l ∈ env → YBytes b ∈ (runProcess l).1 →
           worth_emitting (line_text b) = true →
           line_text b ∈ emitted (run env).
Proof.
  intros Hall. destruct (run_all_end env Hall) as [Hn Hp].
  split; [done|]. split; [done|].
  intros l b Hin Hy Hw. by eapply run_delivers.
Qed.

Lemma reader_launches_again_witness :
  let env := [Launched (mkProcess [(None, list_byte_of_string "1;a;b");
                                   (Some 0%Z, [])] []);
              LaunchFails (py "no such file")] in
  Forall sequence_ends env
  ∧ launches (run env) = length env
  ∧ phase (run env) = Relaunching
  ∧ ∀ l b, l ∈ env → YBytes b ∈ (runProcess l).1 →
           worth_emitting (line_text b) = true →
           line_text b ∈ emitted (run env).
Proof.
  intros env.
  assert (Forall sequence_ends env) as H
    by (repeat constructor; vm_compute; reflexivity).
  split; [exact H|]. exact (reader_launches_again env H).
Defined.

(** C8 (as stated, refuted).  A process that exits with status 0 although
    its standard error has content: the sequence ends without any synthetic
    line. *)
Lemma runProcess_silent_on_zero_exit :
  let p := mkProcess [(Some 0%Z, [])] (list_byte_of_string "warning") in
  stderr_data p ≠ []
  ∧ (runProcess (Launched p)).2 = true
  ∧ ∀ s, YStr s ∉ (runProcess (Launched p)).1.
Proof.
  vm_compute. split; [done|]. split; [done|].
  intros s H. apply elem_of_cons in H as [H|H]; [done|].
  by apply elem_of_nil in H.
Qed.

(** C8 (amended).  When [poll()] first reports an exit status, [runProcess]
    yields the line read in that turn and ends; before ending it yields
    exactly one synthetic line "Error: <text>" if and only if the status is
    non-zero and the standard error, decoded with ill-formed bytes dropped
    and stripped of blanks, is non-empty.  If the process cannot be launched
    the sequence is the single line "Exception: <description>". *)
Theorem runProcess_synthetic_lines (p : process)
    (before after : list (option Z * bytes)) (rc : Z) (line : bytes) :
  turns p = before ++ (Some rc, line) :: after →
  Forall (fun t : option Z * bytes => t.1 = None) before →
  runProcess (Launched p)
  = (map (fun t => YBytes t.2) before
       ++ YBytes line
       :: (if decide (rc ≠ 0%Z ∧ line_text (stderr_data p) ≠ [])
           then [YStr (py "Error: " ++ line_text (stderr_data p))]
           else []),
     true)
  ∧ ∀ description,
      runProcess (LaunchFails description)
      = ([YStr (py "Exception: " ++ description)], true).
Proof.
  intros Hturns Hbefore. split; [|done].
  unfold runProcess. rewrite Hturns.
  rewrite runProcess_loop_exit by done. by rewrite on_exit_cases.
Qed.

Lemma runProcess_synthetic_lines_witness :
  let p := mkProcess [(None, list_byte_of_string "1;a;b");
                      (Some 2%Z, []); (None, [])]
                     (list_byte_of_string " boom ") in
  runProcess (Launched p)
  = ([YBytes (list_byte_of_string "1;a;b"); YBytes [];
      YStr (py "Error: boom")], true)
  ∧ ∀ description,
      runProcess (LaunchFails description)
      = ([YStr (py "Exception: " ++ description)], true).
Proof.
  intros p.
  apply (runProcess_synthetic_lines p
           [(None, list_byte_of_string "1;a;b")] [(None, [])] 2%Z []).
  - reflexivity.
  - repeat constructor.
Defined.

(** C9 (as stated, refuted).  On the bytes [61 ff 62] the reader's decoded
    line is "ab": the ill-formed byte is dropped, where replacing it would
    give "a", U+FFFD, "b". *)
Lemma decode_line_drops_not_replaces :
  let b := [x61; xff; x62] in
  decode_line (YBytes b) = Ok (py "ab")
  ∧ utf8_decode Replace b = Ok [97; 65533; 98]%N
  ∧ decode_line (YBytes b) ≠ (s <- utf8_decode Replace b ;; Ok (PyStr.strip s)).
Proof. vm_compute. by repeat split. Qed.

(** C9 (amended).  Decoding a line of bytes never raises: the reader gets
    the strict decoding when the bytes are well-formed UTF-8, and otherwise
    the decoding in which every ill-formed sequence is dropped (not
    replaced); either way the result is that text stripped of blanks. *)
Theorem decode_line_never_raises (b : bytes) :
  ∃ s, utf8_decode Ignore b = Ok s
       ∧ decode_line (YBytes b) = Ok (PyStr.strip s)
       ∧ (utf8_decode Strict b = Ok s
          ∨ utf8_decode Strict b = Raise UnicodeDecodeError).
Proof.
  destruct (utf8_ignore_total b) as [s Hs]. exists s. split; [done|]. split.
  - rewrite decode_line_bytes. unfold line_text. by rewrite Hs.
  - unfold utf8_decode in *.
    destruct (utf8_decode_loop Strict (length b) b) as [s'|e] eqn:Hstrict.
    + left. apply utf8_strict_ignore_loop in Hstrict. congruence.
    + right. by apply utf8_strict_raises_loop in Hstrict as ->.
Qed.

(** ** The table across the operations of the window *)

Lemma add_row_record t data :
  Table.wf t →
  add_row t data
  = mkTable (columnCount t) (S (rowCount t))
      (tableItems t ++ paint 0 (drop 1 data) (replicate (columnCount t) None)).
Proof.
  intros Hwf. unfold add_row. rewrite insertRow_end by done.
  unfold enumerate. apply fill_last_row; [done | by rewrite length_replicate].
Qed.

Lemma add_row_old_rows t data r c :
  Table.wf t → r < rowCount t →
  Table.item (add_row t data) r c = Table.item t r c.
Proof.
  intros Hwf Hr. rewrite add_row_record by done.
  unfold Table.item, Table.tableIndex. simpl.
  destruct (decide (c < columnCount t)) as [Hc|Hc].
  - rewrite !decide_True by lia.
    rewrite lookup_app_l; [done|]. rewrite Hwf. nia.
  - by rewrite !decide_False by lia.
Qed.

Lemma add_row_wf t data : Table.wf t → Table.wf (add_row t data).
Proof.
  intros Hwf. rewrite add_row_record by done. unfold Table.wf in *. simpl.
  rewrite length_app, paint_length, length_replicate. lia.
Qed.

Lemma update_table_rowCount t line :
  rowCount t ≤ rowCount (update_table t line).
Proof.
  unfold update_table. destruct (record_bearing line); [|done].
  cbv zeta. generalize (enumerate (drop 1 (PyStr.split (chr ";") line))).
  intros l.
  assert (∀ acc, rowCount t ≤ rowCount acc →
            rowCount t ≤ rowCount
              (foldl (fun acc '(i, field) =>
                        Table.setItem acc (rowCount t) i field) acc l)) as H.
  { induction l as [|[i f] l IH]; intros acc Hacc; simpl; [done|].
    apply IH. unfold Table.setItem. by case_decide. }
  apply H. unfold Table.insertRow. case_decide; simpl; lia.
Qed.

Lemma start_capture_table a now start :
  imsi_table (start_capture a now start) = imsi_table a.
Proof. by destruct start. Qed.

Lemma repeat_scan_table {python : Python} a ts d now start :
  imsi_table (repeat_scan a ts d now start) = imsi_table a.
Proof.
  unfold repeat_scan, extract_params_from_logs.
  destruct (convert_params _) as [[[[f|] [g|]] [p|]]|[]]; simpl; try done.
  unfold update_spinboxes.
  destruct f as [z|?]; [destruct (fits_c_int z)|]; simpl;
    by rewrite ?start_capture_table.
Qed.

Create HintDb table discriminated.

#[local] Hint Resolve update_table_wf add_row_wf update_table_old_rows
  add_row_old_rows update_table_rowCount : table.

(** Case analysis on an operation: those that only touch the log and the
    flowgraph are settled by rewriting, the two that append by the lemmas
    about appending. *)
Ltac by_operation ev :=
  destruct ev as [now start|[]|line|data|ts d now start];
  simpl; rewrite ?start_capture_table, ?repeat_scan_table; eauto with table.

Lemma step_old_rows {python : Python} a ev r c :
  Table.wf (imsi_table a) → r < rowCount (imsi_table a) →
  Table.item (imsi_table (step a ev)) r c = Table.item (imsi_table a) r c.
Proof. intros Hwf Hr. by_operation ev. Qed.

Lemma step_wf {python : Python} a ev :
  Table.wf (imsi_table a) → Table.wf (imsi_table (step a ev)).
Proof. intros Hwf. by_operation ev. Qed.

Lemma step_rowCount {python : Python} a ev :
  Table.wf (imsi_table a) →
  rowCount (imsi_table a) ≤ rowCount (imsi_table (step a ev)).
Proof.
  intros Hwf. by_operation ev.
  rewrite add_row_record by done. simpl. lia.
Qed.

(** Rows survive any sequence of operations, session starts included. *)
Lemma steps_old_rows {python : Python} evs : ∀ a r c,
  Table.wf (imsi_table a) → r < rowCount (imsi_table a) →
  Table.item (imsi_table (foldl step a evs)) r c = Table.item (imsi_table a) r c.
Proof.
  induction evs as [|ev evs IH]; intros a r c Hwf Hr; simpl; [done|].
  rewrite IH.
  - by apply step_old_rows.
  - by apply step_wf.
  - pose proof (step_rowCount a ev Hwf). lia.
Qed.

(** C2 (as stated, refuted).  With one row in the table, starting a capture
    leaves that row in place: the table is not reset. *)
Lemma start_capture_does_not_clear :
  let a := on_output app_init (py "1;a;b;c;d;e;f") in
  let a' := start_capture a (py "2024-01-01 10:00 CET") (Ok ()) in
  rowCount (imsi_table a) = 1 ∧ rowCount (imsi_table a') ≠ 0.
Proof. vm_compute. by split. Qed.

(** C2 (amended).  The table is empty when the window is built and only ever
    grows: [start_capture] leaves it exactly as it was (there is no reset at
    a session start), and no operation of the window removes or changes a
    row that was appended before. *)
Theorem imsi_table_append_only {python : Python}
    (a : app) (ev : event) (r c : nat) :
  Table.wf (imsi_table a) → r < rowCount (imsi_table a) →
  Table.item (imsi_table (step a ev)) r c = Table.item (imsi_table a) r c
  ∧ rowCount (imsi_table a) ≤ rowCount (imsi_table (step a ev))
  ∧ Table.wf (imsi_table (step a ev))
  ∧ rowCount (imsi_table app_init) = 0
  ∧ ∀ now start, imsi_table (start_capture a now start) = imsi_table a.
Proof.
  intros Hwf Hr. split; [by apply step_old_rows|].
  split; [by apply step_rowCount|]. split; [by apply step_wf|].
  split; [done|]. intros now start. apply start_capture_table.
Qed.

Lemma imsi_table_append_only_witness :
  let a := on_output app_init (py "1;a;b;c;d;e;f") in
  let ev := OutputLine (py "2;g;h;i;j;k;l;m") in
  (Table.wf (imsi_table a) ∧ 0 < rowCount (imsi_table a))
  ∧ Table.item (imsi_table (step a ev)) 0 0 = Table.item (imsi_table a) 0 0
  ∧ rowCount (imsi_table a) ≤ rowCount (imsi_table (step a ev))
  ∧ Table.wf (imsi_table (step a ev))
  ∧ rowCount (imsi_table app_init) = 0
  ∧ ∀ now start, imsi_table (start_capture a now start) = imsi_table a.
Proof.
  intros a ev.
  assert (Table.wf (imsi_table a)) as Hwf by reflexivity.
  assert (0 < rowCount (imsi_table a)) as Hr by (vm_compute; lia).
  split; [by split|]. exact (imsi_table_append_only a ev 0 0 Hwf Hr).
Defined.

(** C3.  A line that is empty, or contains "CellId", or has fewer than six
    semicolons is not a record: [update_table] leaves the table as it was,
    so no row is appended for it; the saved-session dialog skips it too. *)
Theorem not_a_record_appends_nothing (t : QTableWidget) (line : str) :
  line = [] ∨ PyStr.contains (py "CellId") line = true
  ∨ PyStr.count (chr ";") line < 6 →
  update_table t line = t
  ∧ rowCount (update_table t line) = rowCount t
  ∧ populate_line t line = t.
Proof.
  intros H%record_bearing_false.
  rewrite update_table_skip by done. unfold populate_line. by rewrite H.
Qed.

Lemma not_a_record_appends_nothing_witness :
  let line := py "CellId;TMSI1;TMSI2;IMSI;country;brand;operator" in
  PyStr.contains (py "CellId") line = true
  ∧ update_table imsi_table_init line = imsi_table_init
  ∧ rowCount (update_table imsi_table_init line) = rowCount imsi_table_init
  ∧ populate_line imsi_table_init line = imsi_table_init.
Proof.
  intros line.
  assert (PyStr.contains (py "CellId") line = true) as H by reflexivity.
  split; [exact H|].
  exact (not_a_record_appends_nothing imsi_table_init line
           (or_intror (or_introl H))).
Defined.

(** C4 (as stated, refuted).  A record line whose remainder has six fields:
    the seventh cell of its row is given no item, which is not the same as
    an empty string.  A line that does carry an empty seventh field gives a
    different table, and the relational export binds the null marker for
    the one and the empty string for the other. *)
Lemma missing_field_is_no_item :
  let short := update_table imsi_table_init (py "1;a;b;c;d;e;f") in
  let blank := update_table imsi_table_init (py "1;a;b;c;d;e;f;") in
  (Table.item short 0 6 = None ∧ Table.item blank 0 6 = Some [])
  ∧ short ≠ blank
  ∧ zip insert_columns (row_data short 0) !! 6
    = Some (py "imsioperator", None)
  ∧ zip insert_columns (row_data blank 0) !! 6
    = Some (py "imsioperator", Some []).
Proof. vm_compute. by repeat split. Qed.

(** C4 (amended).  For a line with at least six semicolons and no "CellId",
    [update_table] splits it at the semicolons, drops the first field, and
    appends one row whose cell in column [c] holds the field at position [c]
    of the remainder, for each of the eleven columns.  Where the remainder
    is shorter the cell is left without an item: the delimited-text exports
    read it as the empty string, the relational export as the null marker.
    Fields past the eleventh are not stored anywhere; earlier rows are
    untouched.  Nothing in this path can raise.  The sample line yields the
    row 111, 222, 310170000000001, USA, Verizon, Verizon, 310, 170, 12345,
    0x1A2B, 2024-01-01 10:00 CET; its cells hold text, and those of MCC, MNC
    and LAC read as the integers 310, 170 and 12345. *)
Theorem record_line_appends_row (t : QTableWidget) (line : str) :
  Table.wf t → columnCount t = 11 →
  6 ≤ PyStr.count (chr ";") line → PyStr.contains (py "CellId") line = false →
  let rest := drop 1 (PyStr.split (chr ";") line) in
  let t' := update_table t line in
  (rowCount t' = S (rowCount t) ∧ columnCount t' = 11
   ∧ length (tableItems t') = length (tableItems t) + 11)
  ∧ (∀ c, c < 11 →
       Table.item t' (rowCount t) c = rest !! c
       ∧ Table.text t' (rowCount t) c = default [] (rest !! c)
       ∧ row_texts t' (rowCount t) !! c = Some (default [] (rest !! c))
       ∧ row_data t' (rowCount t) !! c = Some (rest !! c))
  ∧ (∀ c, 11 ≤ c → Table.item t' (rowCount t) c = None)
  ∧ (∀ r c, r < rowCount t → Table.item t' r c = Table.item t r c)
  ∧ (let sample :=
       update_table imsi_table_init
         (py "12;111;222;310170000000001;USA;Verizon;Verizon;310;170;12345;0x1A2B;2024-01-01 10:00 CET") in
     row_texts sample 0
     = map py ["111"; "222"; "310170000000001"; "USA"; "Verizon"; "Verizon";
               "310"; "170"; "12345"; "0x1A2B"; "2024-01-01 10:00 CET"]%string
     ∧ Num.int_of_str (python := cpython_3_11) (Table.text sample 0 6)
       = Ok 310%Z
     ∧ Num.int_of_str (python := cpython_3_11) (Table.text sample 0 7)
       = Ok 170%Z
     ∧ Num.int_of_str (python := cpython_3_11) (Table.text sample 0 8)
       = Ok 12345%Z).
Proof.
  intros Hwf Hcc Hcount Hcell rest t'.
  assert (record_bearing line = true) as Hrb.
  { unfold record_bearing. rewrite Hcell, bool_decide_eq_true_2; done. }
  assert (t' = mkTable (columnCount t) (S (rowCount t))
                 (tableItems t ++ paint 0 rest (replicate (columnCount t) None)))
    as Ht' by (by apply update_table_record).
  assert (columnCount t' = 11) as Hcc' by (by rewrite Ht').
  split; [|split; [|split; [|split]]].
  - rewrite Ht'. simpl.
    rewrite length_app, paint_length, length_replicate. by rewrite Hcc.
  - intros c Hc.
    assert (Table.item t' (rowCount t) c = rest !! c) as Hitem
      by (apply update_table_new_row; [done | done | lia]).
    assert (Table.text t' (rowCount t) c = default [] (rest !! c)) as Htext
      by (unfold Table.text; rewrite Hitem; by destruct (rest !! c)).
    split; [done|]. split; [done|]. split.
    + unfold row_texts.
      rewrite list_lookup_fmap, lookup_seq_lt by lia. simpl. by rewrite Htext.
    + unfold row_data.
      rewrite list_lookup_fmap, lookup_seq_lt by lia. simpl. by rewrite Hitem.
  - intros c Hc. rewrite Ht'. unfold Table.item. simpl.
    rewrite decide_False; [done | lia].
  - intros r c Hr. by apply update_table_old_rows.
  - vm_compute. by repeat split.
Qed.

Lemma record_line_appends_row_witness :
  let t := update_table imsi_table_init (py "1;a;b;c;d;e;f") in
  let line := py "2;g;h;i;j;k;l;m;n;o;p;q;r;s" in
  let t' := update_table t line in
  (rowCount t' = 2 ∧ columnCount t' = 11 ∧ length (tableItems t') = 22)
  ∧ row_texts t' 0
    = map py ["a"; "b"; "c"; "d"; "e"; "f"; ""; ""; ""; ""; ""]%string
  ∧ row_texts t' 1
    = map py ["g"; "h"; "i"; "j"; "k"; "l"; "m"; "n"; "o"; "p"; "q"]%string.
Proof.
  intros t line t'.
  assert (Table.wf t) as Hwf by reflexivity.
  assert (columnCount t = 11) as Hcc by reflexivity.
  assert (6 ≤ PyStr.count (chr ";") line) as Hcount by (vm_compute; lia).
  assert (PyStr.contains (py "CellId") line = false) as Hcell by reflexivity.
  destruct (record_line_appends_row t line Hwf Hcc Hcount Hcell)
    as (Hshape & _).
  split; [exact Hshape|]. split; reflexivity.
Defined.

(** ** Replay *)

Lemma int_of_str_raises {python : Python}
    s e : Num.int_of_str s = Raise e → e = ValueError.
Proof.
  unfold Num.int_of_str. destruct (Num.sign _) as [neg body].
  destruct (Num.digitpart body) as [[[v n] [|c rest]]|]; try congruence.
  destruct (_ && _); congruence.
Qed.

(** Whatever [int] accepts, [float] accepts as a numeral without fraction
    or exponent. *)
Lemma int_of_str_float {python : Python} s z :
  Num.int_of_str s = Ok z →
  ∃ neg m, Num.float_of_str s = Ok (Num.of_numeral neg m 0).
Proof.
  unfold Num.int_of_str, Num.float_of_str.
  destruct (Num.sign _) as [neg body].
  destruct (Num.digitpart body) as [[[v n] [|c rest]]|]; try done.
  destruct (_ && _); [done|]. intros _. by exists neg, v.
Qed.

Lemma of_numeral_not_fractional neg m :
  fractional (Num.of_numeral neg m 0) = false.
Proof. unfold Num.of_numeral. by destruct (Num.overflows m 0). Qed.

Lemma fractional_not_int {python : Python} s f :
  Num.float_of_str s = Ok f → fractional f = true →
  Num.int_of_str s = Raise ValueError.
Proof.
  intros Hf Hfrac. destruct (Num.int_of_str s) as [z|e] eqn:Hint.
  - apply int_of_str_float in Hint as (neg & m & Hf').
    rewrite Hf in Hf'. injection Hf' as ->.
    by rewrite of_numeral_not_fractional in Hfrac.
  - by apply int_of_str_raises in Hint as ->.
Qed.

Lemma py_int_number {python : Python}
    x z : py_int x = Ok z → parses_as_number x = true.
Proof.
  destruct x as [| | | |s| |]; simpl; try done.
  intros (neg & m & ->)%int_of_str_float. done.
Qed.

Lemma py_float_number {python : Python}
    x f : py_float x = Ok f → parses_as_number x = true.
Proof. destruct x as [| | | |s| |]; simpl; try done. by intros ->. Qed.

Lemma unless_none_some {A} (convert : json → result A) x v :
  unless_none convert x = Ok (Some v) → convert x = Ok v.
Proof.
  destruct x; simpl; try done; destruct (convert _); simpl; congruence.
Qed.

(** When the [try] body returns three values, each stored entry was present
    and went through its conversion. *)
Lemma convert_params_inv {python : Python} logs fv gv pv :
  convert_params logs = Ok (Some fv, Some gv, Some pv) →
  ∃ x y z n g p,
    logs !! py "frequency" = Some x ∧ logs !! py "gain" = Some y
    ∧ logs !! py "ppm" = Some z
    ∧ py_int x = Ok n ∧ py_float y = Ok g ∧ py_float z = Ok p
    ∧ fv = VInt n ∧ gv = VFloat g ∧ pv = VFloat p.
Proof.
  unfold convert_params, getitem.
  destruct (logs !! py "frequency") as [x|]; [|done].
  destruct (logs !! py "gain") as [y|]; [|done].
  destruct (logs !! py "ppm") as [z|]; [|done].
  unfold bind at 1 2 3.
  destruct (unless_none py_int x) as [[n|]|] eqn:Hx; [| |done].
  2:{ unfold bind at 1.
      destruct (unless_none py_float y) as [g|]; [|done].
      unfold bind at 1. by destruct (unless_none py_float z). }
  unfold bind at 1.
  destruct (unless_none py_float y) as [[g|]|] eqn:Hy; [| |done].
  2:{ unfold bind at 1. by destruct (unless_none py_float z). }
  unfold bind at 1.
  destruct (unless_none py_float z) as [[p|]|] eqn:Hz; [|done|done].
  simpl. intros [= <- <- <-].
  apply unless_none_some in Hx, Hy, Hz.
  by exists x, y, z, n, g, p.
Qed.

Lemma unusable_no_params {python : Python} logs :
  unusable (logs !! py "frequency") ∨ unusable (logs !! py "gain")
  ∨ unusable (logs !! py "ppm") →
  ∀ fv gv pv, convert_params logs ≠ Ok (Some fv, Some gv, Some pv).
Proof.
  intros Hbad fv gv pv
    (x & y & z & n & g & p & Hx & Hy & Hz & Hn & Hg & Hp & _)%convert_params_inv.
  rewrite Hx, Hy, Hz in Hbad. simpl in Hbad.
  apply py_int_number in Hn. apply py_float_number in Hg, Hp.
  destruct Hbad as [?|[?|?]]; congruence.
Qed.

(** A replay whose parameters do not all convert is abandoned: one more
    error box, and nothing else changes but the log. *)
Lemma repeat_scan_abandoned {python : Python} a ts d now start :
  (∀ fv gv pv,
     convert_params (default ∅ (d !! ts)) ≠ Ok (Some fv, Some gv, Some pv)) →
  let a' := repeat_scan a ts d now start in
  configuration a' = configuration a
  ∧ flowgraph_starts a' = flowgraph_starts a
  ∧ imsi_table a' = imsi_table a
  ∧ ∃ e boxes,
      critical_boxes a'
      = (critical_boxes a ++ boxes)
          ++ [(py "An error occurred while repeating the scan: ", e)].
Proof.
  intros Hno. unfold repeat_scan, extract_params_from_logs.
  destruct (convert_params _) as [[[[fv|] [gv|]] [pv|]]|e] eqn:Hc.
  { by destruct (Hno fv gv pv). }
  all: try (repeat split; try done; exists ValueError, []; simpl;
            by rewrite app_nil_r).
  destruct e; repeat split; try done;
    first [ by eexists _, [_]
          | eexists _, []; simpl; by rewrite app_nil_r ].
Qed.

(** C7.  When the stored frequency, gain or ppm of the replayed session is
    absent or does not read as a number, [repeat_scan] is abandoned with an
    error reported to the operator: the flowgraph's frequency, gain and ppm
    and the three controls keep their values, and no capture is started. *)
Theorem replay_rejects_unusable_params {python : Python}
    (a : app) (timestamp : str)
    (scan_data : gmap str (gmap str json)) (now : str) (start : result ()) :
  let logs := default ∅ (scan_data !! timestamp) in
  unusable (logs !! py "frequency") ∨ unusable (logs !! py "gain")
  ∨ unusable (logs !! py "ppm") →
  let a' := repeat_scan a timestamp scan_data now start in
  configuration a' = configuration a
  ∧ flowgraph_starts a' = flowgraph_starts a
  ∧ imsi_table a' = imsi_table a
  ∧ ∃ e boxes,
      critical_boxes a'
      = (critical_boxes a ++ boxes)
          ++ [(py "An error occurred while repeating the scan: ", e)].
Proof.
  intros logs Hbad. apply repeat_scan_abandoned.
  by apply unusable_no_params.
Qed.

Lemma replay_rejects_unusable_params_witness :
  let session : gmap str json :=
    <[py "frequency" := JFloat (Fin false 943203831 0)]>
      (<[py "gain" := JStr (py "high")]> (<[py "ppm" := JInt 0]> ∅)) in
  let scan_data : gmap str (gmap str json) :=
    <[py "2024-01-01 10:00 CET" := session]> ∅ in
  let a' := repeat_scan app_init (py "2024-01-01 10:00 CET") scan_data
              (py "2024-01-02 09:30 CET") (Ok ()) in
  unusable (session !! py "gain")
  ∧ configuration a' = configuration app_init
  ∧ flowgraph_starts a' = 0.
Proof.
  intros session scan_data a'.
  assert (unusable (default ∅ (scan_data !! py "2024-01-01 10:00 CET")
                      !! py "gain")) as H by (vm_compute; reflexivity).
  split; [exact H|].
  destruct (replay_rejects_unusable_params app_init
              (py "2024-01-01 10:00 CET") scan_data
              (py "2024-01-02 09:30 CET") (Ok ())
              (or_intror (or_introl H))) as (Hc & Hs & _).
  split; [exact Hc | exact Hs].
Defined.

(** C10.  The stored frequency goes through [int], gain and ppm through
    [float].  So when the frequency is a string that denotes a number with
    a fractional part, such as "943203831.5", the conversion raises and the
    replay is abandoned with nothing changed, although the string reads as a
    number; the very same string is accepted as gain and as ppm. *)
Theorem fractional_frequency_rejected {python : Python}
    (a : app) (timestamp : str)
    (scan_data : gmap str (gmap str json)) (now : str) (start : result ())
    (s : str) (f : pyfloat) :
  let logs := default ∅ (scan_data !! timestamp) in
  logs !! py "frequency" = Some (JStr s) →
  Num.float_of_str s = Ok f → fractional f = true →
  let a' := repeat_scan a timestamp scan_data now start in
  (parses_as_number (JStr s) = true ∧ py_int (JStr s) = Raise ValueError)
  ∧ (configuration a' = configuration a
     ∧ flowgraph_starts a' = flowgraph_starts a
     ∧ ∃ e boxes,
         critical_boxes a'
         = (critical_boxes a ++ boxes)
             ++ [(py "An error occurred while repeating the scan: ", e)])
  ∧ ∀ (z : Z) (b : app),
      extract_params_from_logs b
        (<[py "frequency" := JInt z]>
           (<[py "gain" := JStr s]> (<[py "ppm" := JStr s]> ∅)))
      = (b, Ok (Some (VInt z), Some (VFloat f), Some (VFloat f))).
Proof.
  intros logs Hfreq Hf Hfrac a'.
  assert (py_int (JStr s) = Raise ValueError) as Hint
    by (by apply fractional_not_int with f).
  split; [split; [simpl; by rewrite Hf | done]|]. split.
  - destruct (repeat_scan_abandoned a timestamp scan_data now start)
      as (Hc & Hs & _ & Hbox); [|done].
    intros fv gv pv
      (x & y & z & n & g & p & Hx & _ & _ & Hn & _)%convert_params_inv.
    fold logs in Hx. congruence.
  - intros z b. unfold extract_params_from_logs, convert_params, getitem.
    rewrite lookup_insert_eq.
    rewrite lookup_insert_ne by (by vm_compute).
    rewrite lookup_insert_eq.
    rewrite !lookup_insert_ne by (by vm_compute).
    rewrite lookup_insert_eq.
    simpl. by rewrite Hf.
Qed.

Lemma fractional_frequency_rejected_witness :
  let session : gmap str json :=
    <[py "frequency" := JStr (py "943203831.5")]>
      (<[py "gain" := JInt 50]> (<[py "ppm" := JInt 0]> ∅)) in
  let scan_data : gmap str (gmap str json) :=
    <[py "2024-01-01 10:00 CET" := session]> ∅ in
  let a' := repeat_scan app_init (py "2024-01-01 10:00 CET") scan_data
              (py "2024-01-02 09:30 CET") (Ok ()) in
  Num.float_of_str (py "943203831.5") = Ok (Fin false 9432038315 (-1))
  ∧ py_int (JStr (py "943203831.5")) = Raise ValueError
  ∧ configuration a' = configuration app_init
  ∧ flowgraph_starts a' = 0
  ∧ extract_params_from_logs app_init
      (<[py "frequency" := JInt 943203831]>
         (<[py "gain" := JStr (py "943203831.5")]>
            (<[py "ppm" := JStr (py "943203831.5")]> ∅)))
    = (app_init,
       Ok (Some (VInt 943203831),
           Some (VFloat (Fin false 9432038315 (-1))),
           Some (VFloat (Fin false 9432038315 (-1))))).
Proof.
  intros session scan_data a'.
  assert (default ∅ (scan_data !! py "2024-01-01 10:00 CET") !! py "frequency"
          = Some (JStr (py "943203831.5"))) as Hfreq
    by (vm_compute; reflexivity).
  assert (Num.float_of_str (py "943203831.5") = Ok (Fin false 9432038315 (-1)))
    as Hf by (vm_compute; reflexivity).
  destruct (fractional_frequency_rejected app_init
              (py "2024-01-01 10:00 CET") scan_data
              (py "2024-01-02 09:30 CET") (Ok ())
              (py "943203831.5") (Fin false 9432038315 (-1))
              Hfreq Hf eq_refl) as ((_ & Hint) & (Hc & Hs & _) & Hgain).
  split; [exact Hf|]. split; [exact Hint|]. split; [exact Hc|].
  split; [exact Hs|]. exact (Hgain 943203831%Z app_init).
Defined.

(** ** Export *)

Lemma insert_after_alter (m : gmap str file) k g v :
  <[k := v]> (alter g k m) = <[k := v]> m.
Proof.
  apply map_eq. intros j. destruct (decide (k = j)) as [->|Hne].
  - by rewrite !lookup_insert_eq.
  - rewrite !lookup_insert_ne by done. by rewrite lookup_alter_ne.
Qed.

Lemma insert_over (m1 m2 : gmap str file) k u v :
  <[k := u]> m1 = <[k := u]> m2 → <[k := v]> m1 = <[k := v]> m2.
Proof.
  intros H. apply map_eq. intros j.
  apply (f_equal (fun m => m !! j)) in H.
  destruct (decide (k = j)) as [->|Hne].
  - by rewrite !lookup_insert_eq.
  - by rewrite !lookup_insert_ne in * by done.
Qed.


(** A loop of writes that all go through leaves them all in the file. *)
Lemma write_all_ok path xs : ∀ w c,
  files w !! path = Some (TextFile c) → length xs ≤ budget w →
  IO.write_all w path xs
  = (mkWorld (<[path := TextFile (c ++ xs)]> (files w)) (denied w)
             (budget w - length xs) (failure w),
     Ok ()).
Proof.
  induction xs as [|x xs IH]; intros [fs dn b k] c Hc Hb; simpl in *.
  - rewrite app_nil_r, insert_id by done. by rewrite Nat.sub_0_r.
  - unfold IO.write. simpl. destruct b as [|b]; [lia|].
    rewrite (IH _ (c ++ [x])); simpl.
    + by rewrite insert_after_alter, <- app_assoc.
    + by rewrite lookup_alter_eq, Hc.
    + lia.
Qed.


Lemma header_row_eleven t :
  columnCount t = 11 → header_row t = Ok header_labels.
Proof. unfold header_row. by intros ->. Qed.

Lemma export_text_ok w t file_name lines :
  columnCount t = 11 → file_name ∉ denied w →
  length (lines header_labels) ≤ budget w →
  export_text w t file_name lines
  = (mkWorld (<[file_name := TextFile (lines header_labels)]> (files w))
             (denied w) (budget w - length (lines header_labels)) (failure w),
     Ok ()).
Proof.
  intros Hcc Hok Hb. unfold export_text, IO.open_w.
  rewrite decide_False by done. rewrite header_row_eleven by done.
  rewrite (write_all_ok _ _ _ []) by (simpl; done || by rewrite lookup_insert_eq).
  simpl. by rewrite insert_insert_eq.
Qed.



Lemma endswith_nonempty suf file_name :
  PyStr.endswith suf file_name = true → suf ≠ [] → file_name ≠ [].
Proof.
  intros H Hsuf ->. unfold PyStr.endswith in H. simpl in H.
  destruct (rev suf) eqn:Hr; [|done].
  apply (f_equal (@rev N)) in Hr. rewrite rev_involutive in Hr. done.
Qed.

Lemma export_table_as_text w t file_name content :
  PyStr.endswith (py ".csv") file_name = true
  ∧ content = csv_lines t header_labels
  ∨ PyStr.endswith (py ".csv") file_name = false
    ∧ PyStr.endswith (py ".txt") file_name = true
    ∧ content = txt_lines t header_labels →
  ∃ lines, content = lines header_labels
    ∧ export_table w t file_name
      = let '(w', r) := export_text w t file_name lines in
        (w', _ <- r ;; Ok true).
Proof.
  unfold export_table. intros [[Hcsv ->]|(Hcsv & Htxt & ->)].
  - exists (csv_lines t). split; [done|].
    rewrite bool_decide_eq_false_2
      by (eapply endswith_nonempty; [eassumption | done]).
    by rewrite Hcsv.
  - exists (txt_lines t). split; [done|].
    rewrite bool_decide_eq_false_2
      by (eapply endswith_nonempty; [eassumption | done]).
    by rewrite Hcsv, Htxt.
Qed.

Lemma export_table_as_sqlite w t file_name :
  PyStr.endswith (py ".csv") file_name = false →
  PyStr.endswith (py ".txt") file_name = false →
  PyStr.endswith (py ".sqlite") file_name = true →
  export_table w t file_name
  = let '(w', r) := export_sqlite w t file_name in (w', _ <- r ;; Ok true).
Proof.
  intros Hcsv Htxt Hsql. unfold export_table.
  rewrite bool_decide_eq_false_2
    by (eapply endswith_nonempty; [eassumption | done]).
  by rewrite Hcsv, Htxt, Hsql.
Qed.

(** *** The relational export, statement by statement *)

Lemma stored_rows_table w path :
  stored_rows w path = from_option rows [] (IO.table w path).
Proof.
  unfold stored_rows, IO.table.
  by destruct (files w !! path) as [[c|[o|]]|].
Qed.

Lemma table_Some w path o :
  IO.table w path = Some o → files w !! path = Some (Database (Some o)).
Proof.
  unfold IO.table.
  destruct (files w !! path) as [[c|[o1|]]|]; by intros [= ->].
Qed.

Lemma connect_table w path w0 :
  IO.connect w path = Ok w0 →
  IO.table w0 path = IO.table w path ∧ denied w0 = denied w
  ∧ budget w0 = budget w ∧ failure w0 = failure w
  ∧ IO.db_table w0 path = IO.db_table w path
  ∧ <[path := Database None]> (files w0) = <[path := Database None]> (files w)
  ∧ (path ∈ denied w → w0 = w)
  ∧ (∀ f, files w !! path = Some f → w0 = w)
  ∧ ∀ other, other ≠ path → files w0 !! other = files w !! other.
Proof.
  unfold IO.connect. intros Hc.
  destruct (files w !! path) as [f|] eqn:Hf.
  - injection Hc as <-. repeat split; done.
  - case_decide; [done|]. injection Hc as <-.
    unfold IO.table, IO.db_table. simpl.
    rewrite lookup_insert_eq, insert_insert_eq, Hf.
    repeat split; try done.
    intros other Hne. by rewrite lookup_insert_ne.
Qed.

Lemma create_if_absent_table w path columns w1 :
  IO.create_if_absent w path columns = Ok w1 →
  stored_rows w1 path = stored_rows w path ∧ denied w1 = denied w
  ∧ (path ∈ denied w → w1 = w)
  ∧ ∀ other, other ≠ path → files w1 !! other = files w !! other.
Proof.
  unfold IO.create_if_absent. rewrite !stored_rows_table.
  destruct (IO.table w path) as [o|] eqn:Ht.
  - intros [= <-]. by rewrite Ht.
  - unfold IO.db_table, IO.spend, IO.store.
    case_decide; [done|].
    destruct (match files w !! path with
              | Some (TextFile c) => _ | Some (Database t) => _ | None => _
              end) as [tbl|]; [|done].
    cbn [bind]. destruct (budget w); [done|]. cbn [bind].
    intros [= <-]. unfold IO.table. cbn [files denied].
    rewrite lookup_insert_eq. repeat split; try done.
    intros other Hne. by rewrite lookup_insert_ne.
Qed.

Lemma insert_all_world path declared names data : ∀ w pending,
  files (IO.insert_all w path declared names pending data).1 = files w
  ∧ denied (IO.insert_all w path declared names pending data).1 = denied w
  ∧ (path ∈ denied w →
     (IO.insert_all w path declared names pending data).1 = w).
Proof.
  induction data as [|d data IH]; intros w pending; simpl; [done|].
  destruct (negb (forallb _ names)); [done|].
  destruct (negb (bool_decide _)); [done|].
  destruct (negb (IO.bindable d)); [done|].
  case_decide; [done|].
  unfold IO.spend. destruct (budget w) as [|b]; [done|].
  destruct (IH (mkWorld (files w) (denied w) b (failure w))
               (pending ++ [zip names d])) as (Hf & Hd & _).
  rewrite Hf, Hd. done.
Qed.


Lemma insert_all_ok path declared names data : ∀ w pending,
  forallb (IO.declares declared) names = true →
  Forall (fun d => length d = length names) data →
  forallb IO.bindable data = true →
  path ∉ denied w → length data ≤ budget w →
  IO.insert_all w path declared names pending data
  = (mkWorld (files w) (denied w) (budget w - length data) (failure w),
     Ok (pending ++ map (zip names) data)).
Proof.
  intros w pending Hdecl. revert w pending.
  induction data as [|d data IH]; intros [fs dn b k] pending Hlen Hbind Hok Hb;
    simpl in *.
  - by rewrite app_nil_r, Nat.sub_0_r.
  - apply Forall_cons in Hlen as [Hd Hlen].
    apply andb_prop in Hbind as [Hbd Hbind].
    rewrite Hdecl, Hbd, bool_decide_eq_true_2 by done. cbn [negb].
    rewrite decide_False by done.
    unfold IO.spend. simpl. destruct b as [|b]; [lia|].
    rewrite IH by (done || simpl; lia). simpl.
    by rewrite <- app_assoc.
Qed.

Lemma commit_rows w path pending :
  (∀ e, (IO.commit w path pending).2 = Raise e →
        (IO.commit w path pending).1 = w)
  ∧ denied (IO.commit w path pending).1 = denied w
  ∧ ∀ other, other ≠ path →
      files (IO.commit w path pending).1 !! other = files w !! other.
Proof.
  unfold IO.commit, IO.spend, IO.store.
  destruct pending as [|p pending]; [done|].
  destruct (budget w); [done|].
  destruct (IO.table w path) as [o|]; simpl; [|done].
  repeat split; try done. intros other Hne. by rewrite lookup_insert_ne.
Qed.

(** A relational export that raises has added no row. *)
Lemma export_sqlite_raises w t file_name e :
  (export_sqlite w t file_name).2 = Raise e →
  stored_rows (export_sqlite w t file_name).1 file_name
  = stored_rows w file_name.
Proof.
  unfold export_sqlite.
  destruct (IO.connect w file_name) as [w0|e0] eqn:Hc0; [|done].
  apply connect_table in Hc0 as (Ht0 & _).
  assert (stored_rows w0 file_name = stored_rows w file_name) as <-
    by (by rewrite !stored_rows_table, Ht0).
  destruct (IO.create_if_absent w0 file_name observations_schema)
    as [w1|e1] eqn:Hc; [|done].
  apply create_if_absent_table in Hc as (<- & _).
  match goal with |- context [IO.insert_all ?a ?p ?b ?c ?d ?x] =>
    pose proof (insert_all_world p b c x a d) as (Hf & _);
    destruct (IO.insert_all a p b c d x) as [w2 [pending|e2]] eqn:Hi
  end; simpl in *.
  - assert (stored_rows w2 file_name = stored_rows w1 file_name) as <-
      by (unfold stored_rows; by rewrite Hf).
    intros He. destruct (commit_rows w2 file_name pending) as (Hsame & _).
    by rewrite (Hsame e He).
  - intros _. unfold stored_rows. by rewrite Hf.
Qed.


Lemma row_data_length t r : length (row_data t r) = columnCount t.
Proof. unfold row_data. by rewrite length_map, length_seq. Qed.

Lemma row_data_lookup t r c :
  c < columnCount t → row_data t r !! c = Some (Table.item t r c).
Proof.
  intros Hc. unfold row_data.
  rewrite list_lookup_fmap, lookup_seq_lt by done. done.
Qed.

(** The export to a database that can be written and that holds no
    [observations] table, or one with the columns of the schema: once the
    table is there, what is left are the [INSERT]s and the [commit]. *)
Lemma export_sqlite_opened w file_name tbl :
  IO.db_table w file_name = Ok tbl →
  (∀ o, tbl = Some o → schema o = observations_schema) →
  1 ≤ budget w →
  ∃ w1 o k,
    files w1 !! file_name = Some (Database (Some o))
    ∧ schema o = observations_schema ∧ rows o = from_option rows [] tbl
    ∧ denied w1 = denied w ∧ failure w1 = failure w
    ∧ k ≤ 1 ∧ budget w1 = budget w - k
    ∧ (∀ x, <[file_name := x]> (files w1) = <[file_name := x]> (files w))
    ∧ ∀ t,
        export_sqlite w t file_name
        = let '(w2, r) :=
            IO.insert_all w1 file_name (map fst (schema o)) insert_columns []
              (map (row_data t) (seq 0 (rowCount t))) in
          match r with
          | Ok pending => IO.commit w2 file_name pending
          | Raise e => (w2, Raise e)
          end.
Proof.
  intros Htbl Hschema Hb.
  assert (file_name ∉ denied w) as Hok.
  { intros Hin. unfold IO.db_table in Htbl. by rewrite decide_True in Htbl. }
  unfold export_sqlite.
  destruct (IO.connect w file_name) as [w0|e0] eqn:Hc0.
  2:{ unfold IO.connect in Hc0.
      destruct (files w !! file_name); [done|by rewrite decide_False in Hc0]. }
  apply connect_table
    in Hc0 as (Ht0 & Hd0 & Hb0 & Hk0 & Hdb0 & Hins0 & _ & Hsame0 & _).
  unfold IO.create_if_absent.
  destruct (IO.table w0 file_name) as [o|] eqn:Ht.
  - (* the table is there *)
    symmetry in Ht0. apply table_Some in Ht0 as Hf.
    assert (w0 = w) as -> by (by eapply Hsame0).
    assert (tbl = Some o) as ->.
    { unfold IO.db_table in Htbl. rewrite decide_False, Hf in Htbl by done.
      by simplify_eq. }
    exists w, o, 0. repeat split; try done.
    + by apply Hschema.
    + lia.
    + lia.
    + intros t. by rewrite Ht.
  - (* the table has to be created *)
    rewrite Hdb0, Htbl. cbn [bind].
    assert (tbl = None) as ->.
    { symmetry in Ht0. unfold IO.table in Ht0.
      unfold IO.db_table in Htbl. rewrite decide_False in Htbl by done.
      destruct (files w !! file_name) as [[c|[o1|]]|]; try done;
        [by destruct (IO.one_byte_at_most c); simplify_eq|by simplify_eq..]. }
    unfold IO.spend. rewrite Hb0.
    destruct (budget w) as [|b] eqn:Hbw; [exfalso; lia|]. cbn [bind].
    unfold IO.store. cbn [files denied budget failure].
    exists (mkWorld (<[file_name := Database (Some
                        (mkObs observations_schema []))]> (files w0))
                    (denied w0) b (failure w0)),
           (mkObs observations_schema []), 1.
    cbn [files denied budget failure schema rows from_option].
    rewrite lookup_insert_eq. repeat split; try done.
    + lia.
    + intros x. rewrite insert_insert_eq.
      apply (insert_over _ _ _ _ _ Hins0).
    + intros t. unfold IO.table. cbn [files]. by rewrite lookup_insert_eq.
Qed.

(** ... when every row can be bound and the device takes every
    statement. *)
Lemma export_sqlite_ok w t file_name tbl :
  columnCount t = 11 →
  IO.db_table w file_name = Ok tbl →
  (∀ o, tbl = Some o → schema o = observations_schema) →
  bindable_rows t = true →
  rowCount t + 2 ≤ budget w →
  ∃ spent, spent ≤ rowCount t + 2 ∧
    export_sqlite w t file_name
    = (mkWorld
         (<[file_name :=
              Database (Some (mkObs observations_schema
                (from_option rows [] tbl
                 ++ map (fun r => zip insert_columns (row_data t r))
                        (seq 0 (rowCount t)))))]> (files w))
         (denied w) (budget w - spent) (failure w),
       Ok ()).
Proof.
  intros Hcc Htbl Hschema Hbind Hb.
  assert (file_name ∉ denied w) as Hok.
  { intros Hin. unfold IO.db_table in Htbl. by rewrite decide_True in Htbl. }
  destruct (export_sqlite_opened w file_name tbl)
    as (w1 & o & k & Hf & Ho & Hrows & Hd1 & Hk1 & Hk & Hb1 & Hins & ->);
    [done|done|lia|].
  set (data := map (row_data t) (seq 0 (rowCount t))).
  assert (length data = rowCount t) as Hdata
    by (subst data; by rewrite length_map, length_seq).
  assert (Forall (fun d => length d = length insert_columns) data) as Hlen.
  { apply Forall_forall. intros d (r & -> & _)%list_elem_of_fmap.
    by rewrite row_data_length, Hcc. }
  assert (map (fun r => zip insert_columns (row_data t r)) (seq 0 (rowCount t))
          = map (zip insert_columns) data) as ->
    by (subst data; by rewrite map_map).
  rewrite insert_all_ok;
    [|by rewrite Ho|done|done|by rewrite Hd1|lia].
  cbn [Datatypes.app]. unfold IO.commit. rewrite <- Hrows.
  destruct (map (zip insert_columns) data) as [|p ps] eqn:Hps.
  - exists (k + length data). split; [lia|].
    rewrite app_nil_r, <- Hins. rewrite insert_id.
    2:{ rewrite Hf. destruct o as [sc rs]. simpl in *. by subst sc. }
    rewrite Hd1, Hk1. f_equal. f_equal. lia.
  - exists (k + length data + 1). split; [lia|].
    unfold IO.spend, IO.table, IO.store. cbn [files denied budget failure].
    destruct (budget w1 - length data) as [|b'] eqn:Hb'; [exfalso; lia|].
    rewrite Hf. cbn [schema rows]. rewrite Ho, Hins, Hd1, Hk1.
    f_equal. f_equal. simpl. lia.
Qed.

Lemma insert_all_unbindable path declared names data : ∀ w pending,
  forallb (IO.declares declared) names = true →
  Forall (fun d => length d = length names) data →
  forallb IO.bindable data = false →
  path ∉ denied w → length data ≤ budget w →
  (IO.insert_all w path declared names pending data).2
  = Raise UnicodeEncodeError.
Proof.
  induction data as [|d data IH]; intros [fs dn b k] pending Hdecl Hlen Hbind
    Hok Hb; simpl in *; [done|].
  apply Forall_cons in Hlen as [Hd Hlen].
  rewrite Hdecl, bool_decide_eq_true_2 by done. cbn [negb].
  destruct (IO.bindable d) eqn:Hbd; cbn [negb]; [|done].
  rewrite decide_False by done.
  unfold IO.spend. simpl. destruct b as [|b]; [lia|].
  apply IH; (done || simpl; lia).
Qed.

(** ... and when some cell text cannot be bound: the export raises at the
    first such row. *)
Lemma export_sqlite_unbindable w t file_name tbl :
  columnCount t = 11 →
  IO.db_table w file_name = Ok tbl →
  (∀ o, tbl = Some o → schema o = observations_schema) →
  bindable_rows t = false →
  rowCount t + 2 ≤ budget w →
  (export_sqlite w t file_name).2 = Raise UnicodeEncodeError.
Proof.
  intros Hcc Htbl Hschema Hbind Hb.
  assert (file_name ∉ denied w) as Hok.
  { intros Hin. unfold IO.db_table in Htbl. by rewrite decide_True in Htbl. }
  destruct (export_sqlite_opened w file_name tbl)
    as (w1 & o & k & Hf & Ho & Hrows & Hd1 & Hk1 & Hk & Hb1 & Hins & ->);
    [done|done|lia|].
  match goal with |- context [IO.insert_all ?a ?p ?b ?c ?d ?x] =>
    pose proof (insert_all_unbindable p b c x a d) as Hraise;
    destruct (IO.insert_all a p b c d x) as [w2 r]
  end.
  simpl in *. rewrite Hraise; [done|by rewrite Ho| |done|by rewrite Hd1|].
  - apply Forall_forall. intros d (r' & -> & _)%list_elem_of_fmap.
    by rewrite row_data_length, Hcc.
  - rewrite length_map, length_seq. lia.
Qed.

(** A text that holds a lone surrogate cannot be bound: the export raises
    and no row is added. *)
Example export_sqlite_lone_surrogate :
  let t := update_table (update_table imsi_table_init (py "1;a;b;c;d;e;f"))
                        (py "2;g;" ++ [55296%N] ++ py ";i;j;k;l") in
  let out := export_table (mkWorld ∅ ∅ 9 DeviceFails) t (py "out.sqlite") in
  out.2 = Raise UnicodeEncodeError
  ∧ stored_rows out.1 (py "out.sqlite") = [].
Proof. vm_compute. by split. Qed.

(** C5 (as stated, refuted).  Exporting the one-row sample table to a new
    database: the TMSI-1 cell is bound to column [stamp], the [mcc] column
    is bound to the MNC cell, and [cell] to the timestamp text, which is not
    numeric and is not replaced by the null marker. *)
Lemma export_sqlite_shifts_columns :
  let t := update_table imsi_table_init
    (py "12;111;222;310170000000001;USA;Verizon;Verizon;310;170;12345;0x1A2B;2024-01-01 10:00 CET") in
  let out := export_table (mkWorld ∅ ∅ 3 DeviceFails) t (py "out.sqlite") in
  out.2 = Ok true
  ∧ (header_labels !! 6 = Some (py "MCC")
     ∧ Table.item t 0 6 = Some (py "310")
     ∧ header_labels !! 10 = Some (py "Timestamp"))
  ∧ ∃ row,
      stored_rows out.1 (py "out.sqlite") = [row]
      ∧ row !! 0 = Some (py "stamp", Some (py "111"))
      ∧ row !! 7 = Some (py "mcc", Some (py "170"))
      ∧ row !! 10 = Some (py "cell", Some (py "2024-01-01 10:00 CET")).
Proof.
  vm_compute. split; [done|]. split; [done|]. eexists. by repeat split.
Qed.

(** C5 (amended).  Exporting to a [.sqlite] destination that holds no
    [observations] table creates it with the fixed eleven-column schema (a
    table already there with that schema is kept), and runs one [INSERT]
    for each table row with eleven bound values: the texts of the row's
    eleven cells in table order, each exactly as it stands in the cell,
    with the null marker where the cell has no item.  The exporter itself
    parses nothing and nulls nothing: a cell that is not numeric is bound as
    its text, and whether a cell is numeric has no part in whether the
    export raises.  The one cell content that makes it raise is a text that
    cannot be encoded as UTF-8, which no row is added for. *)
Theorem export_sqlite_inserts_cells (w : world) (t : QTableWidget)
    (file_name : str) (tbl : option observations) :
  columnCount t = 11 →
  PyStr.endswith (py ".csv") file_name = false →
  PyStr.endswith (py ".txt") file_name = false →
  PyStr.endswith (py ".sqlite") file_name = true →
  IO.db_table w file_name = Ok tbl →
  (∀ o, tbl = Some o → schema o = observations_schema) →
  rowCount t + 2 ≤ budget w →
  let out := export_table w t file_name in
  let added := map (fun r => zip insert_columns (row_data t r))
                   (seq 0 (rowCount t)) in
  (if bindable_rows t
   then out.2 = Ok true
        ∧ files out.1 !! file_name
          = Some (Database (Some (mkObs observations_schema
                                    (from_option rows [] tbl ++ added))))
   else out.2 = Raise UnicodeEncodeError
        ∧ stored_rows out.1 file_name = stored_rows w file_name)
  ∧ length added = rowCount t
  ∧ ∀ r, (zip insert_columns (row_data t r)).*1 = insert_columns
         ∧ (zip insert_columns (row_data t r)).*2 = row_data t r
         ∧ ∀ c, c < 11 → row_data t r !! c = Some (Table.item t r c).
Proof.
  intros Hcc Hcsv Htxt Hsql Htbl Hschema Hb out added. split.
  - subst out. rewrite export_table_as_sqlite by done.
    destruct (bindable_rows t) eqn:Hbind.
    + destruct (export_sqlite_ok w t file_name tbl) as (spent & _ & ->);
        try done.
      cbn [fst snd files bind]. by rewrite lookup_insert_eq.
    + pose proof (export_sqlite_unbindable w t file_name tbl
                    Hcc Htbl Hschema Hbind Hb) as Hraise.
      pose proof (export_sqlite_raises w t file_name UnicodeEncodeError Hraise)
        as Hsame.
      destruct (export_sqlite w t file_name) as [w' r]. simpl in *.
      by subst r.
  - split; [subst added; by rewrite length_map, length_seq|].
    intros r.
    assert (length (row_data t r) = length insert_columns) as Hlen
      by (by rewrite row_data_length, Hcc).
    split; [apply fst_zip; lia|]. split; [apply snd_zip; lia|].
    intros c Hc. apply row_data_lookup. lia.
Qed.

Lemma export_sqlite_inserts_cells_witness :
  let t := update_table imsi_table_init (py "1;a;b;c;d;e;f") in
  let out := export_table (mkWorld ∅ ∅ 3 DeviceFails) t (py "out.sqlite") in
  out.2 = Ok true
  ∧ files out.1 !! py "out.sqlite"
    = Some (Database (Some (mkObs observations_schema
              [zip insert_columns
                 [Some (py "a"); Some (py "b"); Some (py "c"); Some (py "d");
                  Some (py "e"); Some (py "f"); None; None; None; None;
                  None]]))).
Proof.
  intros t out.
  assert (IO.db_table (mkWorld ∅ ∅ 3 DeviceFails) (py "out.sqlite") = Ok None)
    as Hdb by (vm_compute; reflexivity).
  destruct (export_sqlite_inserts_cells (mkWorld ∅ ∅ 3 DeviceFails) t
              (py "out.sqlite") None eq_refl eq_refl eq_refl eq_refl Hdb)
    as (Hout & _).
  - intros o Ho. discriminate Ho.
  - vm_compute. lia.
  - exact Hout.
Defined.




(* ================================================================== *)
(** * Further properties *)
(* ================================================================== *)

(** ** Splitting, joining, stripping *)

Lemma split_no_sep c s : c ∉ s → PyStr.split c s = [s].
Proof.
  induction s as [|x s IH]; intros Hc; simpl; [done|].
  apply not_elem_of_cons in Hc as [Hx Hs].
  rewrite (proj2 (N.eqb_neq x c)) by done. by rewrite IH.
Qed.

Lemma split_app_sep c p s :
  c ∉ p → PyStr.split c (p ++ c :: s) = p :: PyStr.split c s.
Proof.
  induction p as [|x p IH]; intros Hc; simpl.
  - by rewrite N.eqb_refl.
  - apply not_elem_of_cons in Hc as [Hx Hp].
    rewrite (proj2 (N.eqb_neq x c)) by done. by rewrite IH.
Qed.

Lemma split_join c parts :
  parts ≠ [] → Forall (fun p => c ∉ p) parts →
  PyStr.split c (PyStr.join [c] parts) = parts.
Proof.
  intros Hne Hall. induction Hall as [|p ps Hp Hps IH]; [done|].
  destruct ps as [|q ps]; simpl.
  - by apply split_no_sep.
  - rewrite split_app_sep by done. f_equal. by apply IH.
Qed.

Lemma join_split c s : PyStr.join [c] (PyStr.split c s) = s.
Proof.
  induction s as [|x s IH]; simpl; [done|].
  pose proof (split_length c s) as Hlen.
  destruct (N.eqb_spec x c) as [->|Hne].
  - destruct (PyStr.split c s) as [|q qs] eqn:Hs; [done|].
    simpl in *. by rewrite IH.
  - destruct (PyStr.split c s) as [|f [|q qs]] eqn:Hs; [done| |]; simpl in *;
      by rewrite <- IH.
Qed.

Lemma split_fields_within c s f x :
  f ∈ PyStr.split c s → x ∈ f → x ∈ s.
Proof.
  revert f. induction s as [|y s IH]; intros f Hf Hx; simpl in Hf.
  - apply list_elem_of_singleton in Hf as ->. done.
  - destruct (y =? c)%N.
    + apply elem_of_cons in Hf as [->|Hf]; [by apply elem_of_nil in Hx|].
      apply elem_of_cons. right. by eapply IH.
    + destruct (PyStr.split c s) as [|g gs] eqn:Hs.
      * apply list_elem_of_singleton in Hf as ->. 
        apply list_elem_of_singleton in Hx as ->. by left.
      * apply elem_of_cons in Hf as [->|Hf].
        -- apply elem_of_cons in Hx as [->|Hx]; [by left|].
           apply elem_of_cons. right. apply (IH g); [by left | done].
        -- apply elem_of_cons. right. apply (IH f); [by right | done].
Qed.

Lemma lstrip_suffix s : ∃ pre, s = pre ++ PyStr.lstrip s.
Proof.
  induction s as [|c s [pre IH]]; simpl; [by exists []|].
  destruct (PyStr.isspace c); [|by exists []].
  exists (c :: pre). simpl. by f_equal.
Qed.

Lemma lstrip_head c s :
  PyStr.lstrip (c :: s) = c :: s ↔ PyStr.isspace c = false.
Proof.
  simpl. destruct (PyStr.isspace c); [|done]. split; [|done].
  intros H. destruct (lstrip_suffix s) as [pre Hpre].
  apply (f_equal length) in H, Hpre. rewrite length_app in Hpre.
  simpl in H. lia.
Qed.

Lemma lstrip_idem s : PyStr.lstrip (PyStr.lstrip s) = PyStr.lstrip s.
Proof.
  induction s as [|c s IH]; simpl; [done|].
  destruct (PyStr.isspace c) eqn:Hc; [done|]. simpl. by rewrite Hc.
Qed.

(** Stripping removes all the blanks there are to remove. *)
Lemma strip_idem s : PyStr.strip (PyStr.strip s) = PyStr.strip s.
Proof.
  unfold PyStr.strip, PyStr.rstrip.
  set (u := PyStr.lstrip s). set (w := PyStr.lstrip (rev u)).
  assert (PyStr.lstrip (rev w) = rev w) as Hfront.
  { destruct (lstrip_suffix (rev u)) as [pre Hpre]. fold w in Hpre.
    apply (f_equal (@rev N)) in Hpre.
    rewrite rev_involutive, rev_app_distr in Hpre.
    destruct (rev w) as [|c v] eqn:Hv; [done|].
    apply lstrip_head.
    assert (PyStr.lstrip u = u) as Hu by apply lstrip_idem.
    rewrite Hpre in Hu. simpl in Hu. by apply lstrip_head in Hu. }
  rewrite Hfront, rev_involutive. subst w. by rewrite lstrip_idem.
Qed.

(** ** What the reader emits *)

Lemma read_lines_origin ys d :
  d ∈ (read_lines ys).1 →
  ∃ b, YBytes b ∈ ys ∧ d = line_text b ∧ worth_emitting d = true.
Proof.
  induction ys as [|[b|s] ys IH]; simpl.
  - intros H. by apply elem_of_nil in H.
  - pose proof (decode_line_bytes b) as Hb. simpl in Hb. 
    unfold decode_line. simpl. unfold decode_line in Hb. simpl in Hb.
    rewrite Hb. destruct (read_lines ys) as [out e]. simpl in *.
    intros [Hd|Hd]%elem_of_app.
    + destruct (worth_emitting (line_text b)) eqn:Hw;
        [|by apply elem_of_nil in Hd].
      apply list_elem_of_singleton in Hd as ->.
      exists b. split; [by left | done].
    + destruct (IH Hd) as (b' & Hin & Heq & Hw).
      exists b'. split; [by right | done].
  - intros H. by apply elem_of_nil in H.
Qed.

Lemma stdout_lines_elem l b : b ∈ stdout_lines l ↔ YBytes b ∈ (runProcess l).1.
Proof.
  unfold stdout_lines. rewrite list_elem_of_omap. split.
  - intros ([b'|s] & Hin & Hy); [|done]. by injection Hy as ->.
  - intros Hin. by exists (YBytes b).
Qed.

Lemma run_emitted_origin env d :
  d ∈ emitted (run env) →
  ∃ l b, l ∈ env ∧ b ∈ stdout_lines l ∧ d = line_text b
         ∧ worth_emitting d = true.
Proof.
  induction env as [|l env IH]; simpl.
  - intros H. by apply elem_of_nil in H.
  - destruct (runProcess l) as [ys fin] eqn:Hr.
    destruct (read_lines ys) as [out e] eqn:Hrl.
    assert (d ∈ out → ∃ l0 b, l0 ∈ l :: env ∧ b ∈ stdout_lines l0
                       ∧ d = line_text b ∧ worth_emitting d = true) as Hout.
    { intros Hd. pose proof (read_lines_origin ys d) as H.
      rewrite Hrl in H. destruct (H Hd) as (b & Hin & Heq & Hw).
      exists l, b. split; [by left|]. split; [|done].
      apply stdout_lines_elem. by rewrite Hr. }
    destruct (fin || bool_decide (e ≠ None)); simpl; [|done].
    intros [Hd|Hd]%elem_of_app; [by apply Hout|].
    destruct (IH Hd) as (l0 & b & Hl0 & Hrest).
    exists l0, b. split; [by right | done].
Qed.

Lemma stdout_lines_shape l bs tl :
  (runProcess l).1 = map YBytes bs ++ tl → (tl = [] ∨ ∃ s, tl = [YStr s]) →
  stdout_lines l = bs ∧ (read_lines tl).1 = [].
Proof.
  intros Heq Htl. unfold stdout_lines. rewrite Heq.
  assert ((read_lines tl).1 = [] ∧ ∀ g : yielded → option bytes,
            g = (fun y => match y with YBytes b => Some b | YStr _ => None end) →
            omap g tl = []) as [Hnil Htail].
  { destruct Htl as [->|[s ->]]; (split; [done|]); by intros g ->. }
  split; [|done]. clear Heq.
  induction bs as [|b bs IH]; simpl.
  - by apply Htail.
  - f_equal. apply IH.
Qed.

Lemma read_lines_of_launch l :
  (read_lines (runProcess l).1).1
  = filter (fun d => worth_emitting d = true) (map line_text (stdout_lines l)).
Proof.
  destruct (runProcess_shape l) as (bs & tl & Heq & Htl).
  destruct (stdout_lines_shape l bs tl Heq Htl) as [-> Hnil].
  rewrite Heq, read_lines_bytes. simpl. by rewrite Hnil, app_nil_r.
Qed.

(** X1.  Whatever the processes print and however they end, every line the
    reader emits is non-empty, has no blank at either end and does not
    contain "CellId". *)
Theorem emitted_lines_are_clean (env : list launch) (d : str) :
  d ∈ emitted (run env) →
  d ≠ [] ∧ PyStr.strip d = d ∧ PyStr.contains (py "CellId") d = false.
Proof.
  intros (l & b & _ & _ & Heq & Hw)%run_emitted_origin.
  unfold worth_emitting in Hw. apply andb_prop in Hw as [Hne Hcell].
  apply negb_true_iff in Hne, Hcell. apply bool_decide_eq_false in Hne.
  split; [done|]. split; [|done].
  subst d. unfold line_text. destruct (utf8_decode Ignore b); [|done].
  apply strip_idem.
Qed.

Lemma emitted_lines_are_clean_witness :
  let env := [Launched (mkProcess
                [(None, list_byte_of_string "  1;a;b ");
                 (None, list_byte_of_string "CellId;x");
                 (Some 0%Z, [])] [])] in
  py "1;a;b" ∈ emitted (run env)
  ∧ py "1;a;b" ≠ [] ∧ PyStr.strip (py "1;a;b") = py "1;a;b"
  ∧ PyStr.contains (py "CellId") (py "1;a;b") = false.
Proof.
  intros env.
  assert (py "1;a;b" ∈ emitted (run env)) as H by (vm_compute; by left).
  split; [exact H|]. exact (emitted_lines_are_clean env (py "1;a;b") H).
Defined.

(** X2.  As long as every line sequence ends, what the reader has emitted is
    exactly, launch after launch and in reading order, the texts of the
    lines of bytes read that are non-empty and free of "CellId"; the
    synthetic "Error:" and "Exception:" lines never get through. *)
Theorem emitted_is_filtered_stdout (env : list launch) :
  Forall sequence_ends env →
  emitted (run env)
  = concat (map (fun l => filter (fun d => worth_emitting d = true)
                            (map line_text (stdout_lines l))) env).
Proof.
  induction 1 as [|l env Hl _ IH]; [done|].
  rewrite run_cons_ends by done. simpl.
  by rewrite read_lines_of_launch, IH.
Qed.

Lemma emitted_is_filtered_stdout_witness :
  let env := [Launched (mkProcess
                [(None, list_byte_of_string "1;a;b");
                 (Some 3%Z, list_byte_of_string "2;c")]
                (list_byte_of_string "boom"));
              LaunchFails (py "gone")] in
  Forall sequence_ends env ∧ emitted (run env) = [py "1;a;b"; py "2;c"].
Proof.
  intros env.
  assert (Forall sequence_ends env) as H
    by (repeat constructor; vm_compute; reflexivity).
  split; [exact H|].
  rewrite (emitted_is_filtered_stdout env H). vm_compute. reflexivity.
Defined.

Lemma runProcess_loop_running err ts :
  Forall (fun t : option Z * bytes => t.1 = None) ts →
  runProcess_loop err ts = (map (fun t => YBytes t.2) ts, false).
Proof.
  induction 1 as [|[o line] ts Ho _ IH]; simpl; [done|].
  simpl in Ho. subst o. by rewrite IH.
Qed.

(** X3.  While [poll()] reports no exit status, [runProcess] yields the
    lines read, one per turn and nothing else, and does not end; the reader
    then stays in its [for] loop: one launch, whatever later launches would
    do, and the texts of those lines emitted. *)
Theorem running_process_is_not_relaunched (p : process) (env : list launch) :
  Forall (fun t : option Z * bytes => t.1 = None) (turns p) →
  runProcess (Launched p) = (map (fun t => YBytes t.2) (turns p), false)
  ∧ run (Launched p :: env)
    = mkReader 1
        (filter (fun d => worth_emitting d = true)
                (map (fun t => line_text t.2) (turns p)))
        Reading.
Proof.
  intros Hrun.
  assert (runProcess (Launched p)
          = (map (fun t => YBytes t.2) (turns p), false)) as Hr
    by (by apply runProcess_loop_running).
  split; [done|]. unfold run; fold run. rewrite Hr.
  pose proof (read_lines_bytes [] (map snd (turns p))) as Hrl.
  rewrite app_nil_r, map_map in Hrl. simpl in Hrl.
  rewrite Hrl, app_nil_r, map_map. done.
Qed.

Lemma running_process_is_not_relaunched_witness :
  let p := mkProcess [(None, list_byte_of_string "1;a;b"); (None, [])] [] in
  run [Launched p; LaunchFails (py "gone")]
  = mkReader 1 [py "1;a;b"] Reading.
Proof.
  intros p.
  destruct (running_process_is_not_relaunched p [LaunchFails (py "gone")])
    as [_ H].
  - repeat constructor.
  - exact H.
Defined.

Lemma utf8_decode_ascii h bs :
  Forall (fun b => (Byte.to_N b < 128)%N) bs →
  utf8_decode h bs = Ok (map Byte.to_N bs).
Proof.
  induction 1 as [|b bs Hb _ IH]; [done|].
  rewrite utf8_decode_unfold. unfold utf8_step.
  rewrite (proj2 (N.ltb_lt _ _) Hb). by rewrite IH.
Qed.

(** X4.  A line made of ASCII bytes only is decoded to the same characters,
    with the blanks at both ends removed. *)
Theorem ascii_line_decodes_to_itself (b : bytes) :
  Forall (fun x => (Byte.to_N x < 128)%N) b →
  decode_line (YBytes b) = Ok (PyStr.strip (map Byte.to_N b)).
Proof.
  intros Hascii. unfold decode_line, decode.
  by rewrite utf8_decode_ascii.
Qed.

Lemma ascii_line_decodes_to_itself_witness :
  decode_line (YBytes (list_byte_of_string " 1;a;b "))
  = Ok (py "1;a;b").
Proof.
  apply (ascii_line_decodes_to_itself (list_byte_of_string " 1;a;b ")).
  repeat constructor.
Defined.

(** ** The live table over a run *)

Lemma update_table_rows_added t line :
  Table.wf t →
  rowCount (update_table t line)
  = rowCount t + (if record_bearing line then 1 else 0)
  ∧ columnCount (update_table t line) = columnCount t.
Proof.
  intros Hwf. destruct (record_bearing line) eqn:Hrb.
  - rewrite update_table_record by done. simpl. lia.
  - rewrite update_table_skip by done. lia.
Qed.

Lemma lines_table lines : ∀ t,
  Table.wf t →
  Table.wf (foldl update_table t lines)
  ∧ columnCount (foldl update_table t lines) = columnCount t
  ∧ rowCount (foldl update_table t lines)
    = rowCount t + length (filter (fun l => record_bearing l = true) lines).
Proof.
  induction lines as [|line lines IH]; intros t Hwf; simpl.
  - split; [done|]. split; [done | lia].
  - destruct (IH (update_table t line) (update_table_wf t line Hwf))
      as (Hwf' & Hcc & Hrc).
    destruct (update_table_rows_added t line Hwf) as [Hrows Hcols].
    split; [done|]. split; [congruence|].
    rewrite Hrc, Hrows, filter_cons.
    case_decide as Hd.
    + rewrite Hd. simpl. lia.
    + destruct (record_bearing line); [done|]. lia.
Qed.

Lemma on_output_table lines : ∀ a,
  imsi_table (foldl on_output a lines) = foldl update_table (imsi_table a) lines.
Proof.
  induction lines as [|line lines IH]; intros a; simpl; [done|].
  by rewrite IH.
Qed.

Lemma worth_emitting_record d :
  worth_emitting d = true →
  record_bearing d = bool_decide (6 ≤ PyStr.count (chr ";") d).
Proof.
  unfold worth_emitting, record_bearing. intros [_ Hcell]%andb_prop.
  rewrite Hcell. apply andb_true_r.
Qed.

Lemma filter_agree {A} (P Q : A → Prop) `{∀ x, Decision (P x)}
    `{∀ x, Decision (Q x)} (l : list A) :
  (∀ x, x ∈ l → P x ↔ Q x) → filter P l = filter Q l.
Proof.
  induction l as [|x l IH]; intros Hpq; [done|].
  rewrite !filter_cons.
  rewrite IH by (intros y Hy; apply Hpq; by right).
  destruct (Hpq x) as [H1 H2]; [by left|].
  repeat case_decide; (done || tauto).
Qed.

(** X5.  From the moment the window is built the live table keeps its shape
    whatever lines arrive: eleven columns, eleven item slots per row, and as
    many rows as there were lines with at least six semicolons and no
    "CellId". *)
Theorem live_table_shape (lines : list str) :
  let t := imsi_table (foldl on_output app_init lines) in
  columnCount t = 11
  ∧ length (tableItems t) = rowCount t * 11
  ∧ rowCount t = length (filter (fun l => record_bearing l = true) lines)
  ∧ ∀ r, length (row_texts t r) = 11.
Proof.
  intros t. subst t. rewrite on_output_table.
  destruct (lines_table lines (imsi_table app_init)) as (Hwf & Hcc & Hrc);
    [done|].
  change (imsi_table app_init) with imsi_table_init in *.
  change (columnCount imsi_table_init) with 11 in Hcc.
  change (rowCount imsi_table_init) with 0 in Hrc.
  unfold Table.wf in Hwf. rewrite Hcc in Hwf. rewrite Nat.add_0_l in Hrc.
  split; [done|]. split; [done|]. split; [done|].
  intros r. unfold row_texts. by rewrite length_map, length_seq.
Qed.

(** X6.  Reader and table together: feeding the window everything the reader
    emitted adds exactly one row for each emitted line that has at least six
    semicolons.  The "CellId" test of [update_table] never fires on such a
    line, since the reader has already held those back. *)
Theorem emitted_lines_become_rows (a : app) (env : list launch) :
  Table.wf (imsi_table a) →
  rowCount (imsi_table (foldl on_output a (emitted (run env))))
  = rowCount (imsi_table a)
    + length (filter (fun d => 6 ≤ PyStr.count (chr ";") d)
                     (emitted (run env))).
Proof.
  intros Hwf. rewrite on_output_table.
  destruct (lines_table (emitted (run env)) (imsi_table a) Hwf)
    as (_ & _ & ->).
  f_equal. f_equal. apply filter_agree.
  intros d (l & b & _ & _ & _ & Hw)%run_emitted_origin.
  rewrite (worth_emitting_record d Hw). apply bool_decide_eq_true.
Qed.

Lemma emitted_lines_become_rows_witness :
  let env := [Launched (mkProcess
                [(None, list_byte_of_string "1;a;b;c;d;e;f");
                 (None, list_byte_of_string "Nb IMSI;TMSI-1;TMSI-2;IMSI;country;brand;operator;MCC;MNC;LAC;CellId");
                 (None, list_byte_of_string "short;line");
                 (Some 0%Z, [])] [])] in
  rowCount (imsi_table (foldl on_output app_init (emitted (run env)))) = 1.
Proof.
  intros env.
  rewrite (emitted_lines_become_rows app_init env eq_refl).
  vm_compute. reflexivity.
Defined.

(** X7.  In the row appended for a record line, column [c] gets an item
    exactly when [c] is below the number of semicolons of the line; the
    first six columns therefore always get one. *)
Theorem record_row_filled_cells (t : QTableWidget) (line : str) (c : nat) :
  Table.wf t → columnCount t = 11 → record_bearing line = true → c < 11 →
  (is_Some (Table.item (update_table t line) (rowCount t) c)
   ↔ c < PyStr.count (chr ";") line)
  ∧ (c < 6 → is_Some (Table.item (update_table t line) (rowCount t) c)).
Proof.
  intros Hwf Hcc Hrb Hc.
  rewrite update_table_new_row by (done || lia).
  assert (length (drop 1 (PyStr.split (chr ";") line))
          = PyStr.count (chr ";") line) as Hlen
    by (rewrite length_drop, split_length; lia).
  rewrite lookup_lt_is_Some, Hlen. split; [done|].
  pose proof (record_bearing_false line) as Hnot.
  intros Hc6. destruct (decide (c < PyStr.count (chr ";") line)); [done|].
  rewrite Hnot in Hrb; [done|]. right. right. lia.
Qed.

Lemma record_row_filled_cells_witness :
  let t := imsi_table_init in
  let line := py "7;a;b;c;d;e;f;g" in
  (is_Some (Table.item (update_table t line) 0 6) ↔ 6 < 7)
  ∧ (is_Some (Table.item (update_table t line) 0 7) ↔ 7 < 7).
Proof.
  intros t line.
  destruct (record_row_filled_cells t line 6 eq_refl eq_refl eq_refl)
    as [H6 _]; [lia|].
  destruct (record_row_filled_cells t line 7 eq_refl eq_refl eq_refl)
    as [H7 _]; [lia|].
  split; [exact H6 | exact H7].
Defined.

(** ** The saved-session dialog against the live table *)

Lemma foldl_enumerate_map {A B C} (g : C → nat → B → C) (h : A → B) l :
  ∀ k acc,
  foldl (fun acc '(i, x) => g acc i (h x)) acc (enumerate_from k l)
  = foldl (fun acc '(i, y) => g acc i y) acc (enumerate_from k (map h l)).
Proof.
  induction l as [|x l IH]; intros k acc; simpl; [done|]. apply IH.
Qed.

Lemma dialog_add_row_record t fields :
  Table.wf t →
  dialog_add_row t fields
  = mkTable (columnCount t) (S (rowCount t))
      (tableItems t
       ++ paint 0 (map PyStr.strip (drop 1 fields))
                (replicate (columnCount t) None)).
Proof.
  intros Hwf. unfold dialog_add_row. rewrite insertRow_end by done.
  unfold enumerate.
  rewrite (foldl_enumerate_map
             (fun acc i y => Table.setItem acc (rowCount t) i y) PyStr.strip).
  apply fill_last_row; [done | by rewrite length_replicate].
Qed.

Lemma populate_line_wf t line : Table.wf t → Table.wf (populate_line t line).
Proof.
  intros Hwf. unfold populate_line. destruct (record_bearing line); [|done].
  rewrite dialog_add_row_record by done. unfold Table.wf in *. simpl.
  rewrite length_app, paint_length, length_replicate. lia.
Qed.

Lemma populate_line_rows_added t line :
  Table.wf t →
  rowCount (populate_line t line)
  = rowCount t + (if record_bearing line then 1 else 0).
Proof.
  intros Hwf. unfold populate_line. destruct (record_bearing line); [|lia].
  rewrite dialog_add_row_record by done. simpl. lia.
Qed.

Lemma painted_row_item cc rc items fs c :
  length items = rc * cc →
  Table.item (mkTable cc (S rc) (items ++ paint 0 fs (replicate cc None))) rc c
  = if decide (c < cc) then fs !! c else None.
Proof.
  intros Hitems. unfold Table.item, Table.tableIndex. simpl.
  destruct (decide (c < cc)) as [Hc|Hc].
  - rewrite decide_True by lia.
    rewrite lookup_app_r by lia.
    replace (rc * cc + c - length items) with c by lia.
    rewrite paint_lookup by (by rewrite length_replicate).
    case_decide as Hin; simpl.
    + by rewrite Nat.sub_0_r.
    + rewrite lookup_replicate_2 by done. simpl.
      symmetry. apply lookup_ge_None. lia.
  - by rewrite decide_False by lia.
Qed.

(** X8.  For a record line the saved-session dialog builds the row the live
    table got for that line, except that the dialog strips the blanks around
    every field: each cell of the dialog's new row is the stripped cell of
    the live table's new row, and is missing exactly when that one is. *)
Theorem dialog_row_is_stripped_live_row (dialog live : QTableWidget)
    (line : str) (c : nat) :
  Table.wf dialog → Table.wf live → columnCount dialog = columnCount live →
  record_bearing line = true →
  Table.item (populate_line dialog line) (rowCount dialog) c
  = PyStr.strip <$> Table.item (update_table live line) (rowCount live) c.
Proof.
  intros Hd Hl Hcc Hrb. unfold populate_line. rewrite Hrb.
  rewrite dialog_add_row_record, update_table_record by done.
  rewrite !painted_row_item by done. rewrite Hcc.
  case_decide; [|done]. apply list_lookup_fmap.
Qed.

Lemma dialog_row_is_stripped_live_row_witness :
  let line := py "1; a ;b;c;d;e;f" in
  Table.item (populate_line imsi_table_init line) 0 0 = Some (py "a")
  ∧ Table.item (update_table imsi_table_init line) 0 0 = Some (py " a ").
Proof.
  intros line.
  pose proof (dialog_row_is_stripped_live_row imsi_table_init imsi_table_init
                line 0 eq_refl eq_refl eq_refl eq_refl) as H.
  split; [|reflexivity]. etransitivity; [exact H | reflexivity].
Defined.

Lemma populate_lines lines : ∀ t,
  Table.wf t →
  Table.wf (foldl populate_line t lines)
  ∧ rowCount (foldl populate_line t lines)
    = rowCount t + length (filter (fun l => record_bearing l = true) lines).
Proof.
  induction lines as [|line lines IH]; intros t Hwf; simpl.
  - split; [done | lia].
  - destruct (IH (populate_line t line) (populate_line_wf t line Hwf))
      as (Hwf' & Hrc).
    split; [done|]. rewrite Hrc, populate_line_rows_added, filter_cons by done.
    case_decide as Hd.
    + rewrite Hd. simpl. lia.
    + destruct (record_bearing line); [done|]. lia.
Qed.

(** X9.  A log made of lines joined by newlines is read back by the dialog
    line for line: the dialog's table gets one row for each of those lines
    that has at least six semicolons and no "CellId", none for the others. *)
Theorem dialog_rows_of_joined_log (lines : list str) :
  lines ≠ [] → Forall (fun l => 10%N ∉ l) lines →
  populate_table imsi_table_init (PyStr.join [10%N] lines)
  = foldl populate_line imsi_table_init lines
  ∧ rowCount (populate_table imsi_table_init (PyStr.join [10%N] lines))
    = length (filter (fun l => record_bearing l = true) lines).
Proof.
  intros Hne Hnl. unfold populate_table. rewrite split_join by done.
  split; [done|].
  by destruct (populate_lines lines imsi_table_init) as [_ ->].
Qed.

Lemma dialog_rows_of_joined_log_witness :
  let lines := [py "Starting IMSI MAP version 1.0 scan at 2024-01-01 10:00 CET";
                py "1;a;b;c;d;e;f"; []; py "2;g;h;i;j;k;l"] in
  rowCount (populate_table imsi_table_init (PyStr.join [10%N] lines)) = 2.
Proof.
  intros lines.
  destruct (dialog_rows_of_joined_log lines) as [_ H].
  - discriminate.
  - repeat first [ apply Forall_nil_2
                 | apply Forall_cons_2;
                   [apply (bool_decide_unpack _); vm_compute; exact I|] ].
  - rewrite H. reflexivity.
Defined.

(** ** More on export *)

Lemma row_texts_lookup t r c :
  c < columnCount t → row_texts t r !! c = Some (Table.text t r c).
Proof.
  intros Hc. unfold row_texts.
  by rewrite list_lookup_fmap, lookup_seq_lt by done.
Qed.

Lemma txt_lines_lookup t header r :
  r < rowCount t →
  txt_lines t header !! S r
  = Some (Text (PyStr.join tab (row_texts t r) ++ newline)).
Proof.
  intros Hr. unfold txt_lines. simpl.
  by rewrite list_lookup_fmap, lookup_seq_lt by done.
Qed.

Lemma new_row_text t line c :
  Table.wf t → record_bearing line = true → c < columnCount t →
  Table.text (update_table t line) (rowCount t) c
  = default [] (drop 1 (PyStr.split (chr ";") line) !! c).
Proof.
  intros Hwf Hrb Hc. unfold Table.text.
  rewrite update_table_new_row by done.
  by destruct (_ !! c).
Qed.

(** X10.  Round trip through the tab-delimited export.  For a record line
    without tab characters, the line the [.txt] export writes for its row
    ends in a newline and, split at the tabs, gives back the eleven cell
    texts of the row; for a line of exactly twelve fields these are the
    eleven fields after the first, unchanged and in order. *)
Theorem txt_line_reads_back (t : QTableWidget) (line : str) :
  Table.wf t → columnCount t = 11 → record_bearing line = true →
  9%N ∉ line →
  let t' := update_table t line in
  ∃ body,
    txt_lines t' header_labels !! S (rowCount t)
    = Some (Text (body ++ newline))
    ∧ PyStr.split 9%N body = row_texts t' (rowCount t)
    ∧ (PyStr.count (chr ";") line = 11 →
       PyStr.split 9%N body = drop 1 (PyStr.split (chr ";") line)).
Proof.
  intros Hwf Hcc Hrb Htab t'.
  destruct (update_table_rows_added t line Hwf) as [Hrows Hcols].
  rewrite Hrb in Hrows. fold t' in Hrows, Hcols.
  assert (columnCount t' = 11) as Hcc' by congruence.
  exists (PyStr.join tab (row_texts t' (rowCount t))).
  assert (PyStr.split 9%N (PyStr.join tab (row_texts t' (rowCount t)))
          = row_texts t' (rowCount t)) as Hback.
  { apply split_join.
    - intros Hnil. apply (f_equal length) in Hnil.
      unfold row_texts in Hnil.
      rewrite length_map, length_seq, Hcc' in Hnil. done.
    - apply Forall_forall. intros cell Hcell Hin.
      apply list_elem_of_lookup in Hcell as [c Hc].
      assert (c < 11) as Hlt.
      { apply lookup_lt_Some in Hc. unfold row_texts in Hc.
        by rewrite length_map, length_seq, Hcc' in Hc. }
      rewrite row_texts_lookup in Hc by lia. injection Hc as <-.
      subst t'. rewrite new_row_text in Hin by (done || lia).
      destruct (drop 1 (PyStr.split (chr ";") line) !! c) as [f|] eqn:Hf;
        simpl in Hin; [|by apply elem_of_nil in Hin].
      apply Htab. apply (split_fields_within (chr ";") line f); [|done].
      apply list_elem_of_lookup_2 in Hf. by apply subseteq_drop in Hf. }
  split; [apply txt_lines_lookup; lia|]. split; [done|].
  intros Hcount. rewrite Hback.
  assert (length (drop 1 (PyStr.split (chr ";") line)) = 11) as Hlen
    by (rewrite length_drop, split_length; lia).
  apply list_eq. intros c. destruct (decide (c < 11)) as [Hc|Hc].
  - rewrite row_texts_lookup by lia.
    subst t'. rewrite new_row_text by (done || lia).
    destruct (lookup_lt_is_Some_2 (drop 1 (PyStr.split (chr ";") line)) c)
      as [f Hf]; [lia|]. by rewrite Hf.
  - rewrite !lookup_ge_None_2; [done | lia |].
    unfold row_texts. rewrite length_map, length_seq. lia.
Qed.

Lemma txt_line_reads_back_witness :
  let line := py "12;111;222;310170000000001;USA;Verizon;Verizon;310;170;12345;0x1A2B;2024-01-01 10:00 CET" in
  let t' := update_table imsi_table_init line in
  ∃ body,
    txt_lines t' header_labels !! 1 = Some (Text (body ++ newline))
    ∧ PyStr.split 9%N body = drop 1 (PyStr.split (chr ";") line).
Proof.
  intros line t'.
  destruct (txt_line_reads_back imsi_table_init line eq_refl eq_refl eq_refl)
    as (body & Hline & _ & Hback).
  - apply (bool_decide_unpack _). vm_compute. exact I.
  - exists body. split; [exact Hline|]. apply Hback. reflexivity.
Defined.






(** X12.  A delimited-text export that goes through replaces whatever the
    destination held by the header and the rows, and doing it again leaves
    the very same files: exporting to [.csv] or [.txt] never accumulates. *)
Theorem text_export_overwrites (w : world) (t : QTableWidget)
    (file_name : str) (content : list written) :
  columnCount t = 11 →
  PyStr.endswith (py ".csv") file_name = true
  ∧ content = csv_lines t header_labels
  ∨ PyStr.endswith (py ".csv") file_name = false
    ∧ PyStr.endswith (py ".txt") file_name = true
    ∧ content = txt_lines t header_labels →
  file_name ∉ denied w → 2 * length content ≤ budget w →
  let once := export_table w t file_name in
  let twice := export_table once.1 t file_name in
  once.2 = Ok true ∧ twice.2 = Ok true
  ∧ files once.1 !! file_name = Some (TextFile content)
  ∧ files twice.1 = files once.1.
Proof.
  intros Hcc Hfmt Hok Hb once twice. subst twice once.
  destruct (export_table_as_text w t file_name content Hfmt)
    as (lines & -> & ->).
  rewrite export_text_ok by (done || lia).
  cbn [fst snd bind].
  destruct (export_table_as_text
              (mkWorld (<[file_name := TextFile (lines header_labels)]>
                          (files w))
                       (denied w) (budget w - length (lines header_labels))
                       (failure w))
              t file_name (lines header_labels) Hfmt) as (lines' & Hl & ->).
  rewrite export_text_ok by (done || simpl; rewrite <- Hl; lia).
  cbn [files denied budget]. rewrite <- Hl. cbn [fst snd bind files].
  rewrite insert_insert_eq. by rewrite lookup_insert_eq.
Qed.

Lemma text_export_overwrites_witness :
  let t := update_table imsi_table_init (py "1;a;b;c;d;e;f") in
  let w := mkWorld (<[py "out.txt" := TextFile [Text (py "old")]]> ∅) ∅ 4
                   DeviceFails in
  let once := export_table w t (py "out.txt") in
  files once.1 !! py "out.txt" = Some (TextFile (txt_lines t header_labels))
  ∧ files (export_table once.1 t (py "out.txt")).1 = files once.1.
Proof.
  intros t w once.
  destruct (text_export_overwrites w t (py "out.txt")
              (txt_lines t header_labels) eq_refl)
    as (_ & _ & Hfile & Hsame).
  - right. by repeat split.
  - intros Hin. by apply not_elem_of_empty in Hin.
  - vm_compute. lia.
  - split; [exact Hfile | exact Hsame].
Defined.

(** X13.  The relational export accumulates: exporting the same table twice
    to the same [.sqlite] destination reports success both times and leaves
    every row of the table in [observations] twice, after whatever rows
    were there before.  The one exception is a table with a cell text that
    cannot be encoded as UTF-8: its export raises and adds no row. *)
Theorem sqlite_export_accumulates (w : world) (t : QTableWidget)
    (file_name : str) (tbl : option observations) :
  columnCount t = 11 →
  PyStr.endswith (py ".csv") file_name = false →
  PyStr.endswith (py ".txt") file_name = false →
  PyStr.endswith (py ".sqlite") file_name = true →
  IO.db_table w file_name = Ok tbl →
  (∀ o, tbl = Some o → schema o = observations_schema) →
  2 * (rowCount t + 2) ≤ budget w →
  let once := export_table w t file_name in
  let twice := export_table once.1 t file_name in
  let added := map (fun r => zip insert_columns (row_data t r))
                   (seq 0 (rowCount t)) in
  if bindable_rows t
  then once.2 = Ok true ∧ twice.2 = Ok true
       ∧ stored_rows once.1 file_name = stored_rows w file_name ++ added
       ∧ stored_rows twice.1 file_name
         = stored_rows w file_name ++ added ++ added
  else once.2 = Raise UnicodeEncodeError
       ∧ stored_rows once.1 file_name = stored_rows w file_name.
Proof.
  intros Hcc Hcsv Htxt Hsql Htbl Hschema Hb once twice added.
  subst twice once. rewrite !export_table_as_sqlite by done.
  destruct (bindable_rows t) eqn:Hbind.
  2:{ assert (rowCount t + 2 ≤ budget w) as Hb1 by lia.
      pose proof (export_sqlite_unbindable w t file_name tbl
                    Hcc Htbl Hschema Hbind Hb1) as Hraise.
      pose proof (export_sqlite_raises w t file_name UnicodeEncodeError Hraise)
        as Hsame.
      destruct (export_sqlite w t file_name) as [w' r]. simpl in *.
      by subst r. }
  assert (file_name ∉ denied w) as Hok.
  { intros Hin. unfold IO.db_table in Htbl. by rewrite decide_True in Htbl. }
  assert (stored_rows w file_name = from_option rows [] tbl) as Hold.
  { unfold stored_rows. unfold IO.db_table in Htbl.
    rewrite decide_False in Htbl by done.
    destruct (files w !! file_name) as [[c|[o|]]|]; simpl in *;
      [by destruct (IO.one_byte_at_most c); simplify_eq|by simplify_eq..]. }
  destruct (export_sqlite_ok w t file_name tbl) as (spent & Hspent & ->);
    [done|done|done|done|lia|].
  cbn [fst snd bind]. fold added.
  set (o1 := mkObs observations_schema (from_option rows [] tbl ++ added)).
  set (w1 := mkWorld (<[file_name := Database (Some o1)]> (files w))
                     (denied w) (budget w - spent) (failure w)).
  assert (IO.db_table w1 file_name = Ok (Some o1)) as Hdb1.
  { unfold IO.db_table. simpl. rewrite decide_False by done.
    by rewrite lookup_insert_eq. }
  destruct (export_sqlite_ok w1 t file_name (Some o1)) as (spent' & _ & ->);
    [done|done|by intros o [= <-]|done|simpl; lia|].
  cbn [fst snd bind]. fold added.
  split; [done|]. split; [done|]. rewrite Hold.
  subst o1 w1. unfold stored_rows. cbn [files].
  rewrite !lookup_insert_eq. cbn [rows from_option].
  split; [done|]. by rewrite <- app_assoc.
Qed.

Lemma sqlite_export_accumulates_witness :
  let t := update_table imsi_table_init (py "1;a;b;c;d;e;f") in
  let w := mkWorld ∅ ∅ 6 DeviceFails in
  let once := export_table w t (py "out.sqlite") in
  let twice := export_table once.1 t (py "out.sqlite") in
  length (stored_rows once.1 (py "out.sqlite")) = 1
  ∧ length (stored_rows twice.1 (py "out.sqlite")) = 2.
Proof.
  intros t w once twice.
  assert (IO.db_table w (py "out.sqlite") = Ok None) as Hdb
    by (vm_compute; reflexivity).
  destruct (sqlite_export_accumulates w t (py "out.sqlite") None
              eq_refl eq_refl eq_refl eq_refl Hdb)
    as (_ & _ & H1 & H2).
  - intros o Ho. discriminate Ho.
  - vm_compute. lia.
  - fold once in H1. fold once twice in H2.
    rewrite H1, H2. vm_compute. by split.
Defined.

(** ** The session store and the Scans tab *)

Lemma startswith_app p s : PyStr.startswith p (p ++ s) = true.
Proof. induction p as [|c p IH]; simpl; [done|]. by rewrite N.eqb_refl. Qed.

(** Whether " on" starts a string depends on its first three characters. *)
Lemma startswith_on_ahead ts tail :
  ts ≠ [] →
  PyStr.startswith (py " on") (ts ++ py " on" ++ tail)
  = PyStr.startswith (py " on") (ts ++ py " o").
Proof.
  intros Hne. destruct ts as [|x [|y [|z ts]]]; [done| | |];
    change (py " on") with [32%N; 111%N; 110%N];
    change (py " o") with [32%N; 111%N]; simpl; reflexivity.
Qed.

Lemma lazy_group_cons c s :
  lazy_group (c :: s)
  = if (c =? 10)%N then None
    else if PyStr.startswith (py " on") s then Some [c]
    else g ← lazy_group s; Some (c :: g).
Proof. reflexivity. Qed.

Lemma lazy_group_key tail : ∀ ts,
  ts ≠ [] → 10%N ∉ ts →
  PyStr.contains (py " on") (drop 1 (ts ++ py " o")) = false →
  lazy_group (ts ++ py " on" ++ tail) = Some ts.
Proof.
  induction ts as [|c ts IH]; intros Hne Hnl Hon; [done|].
  apply not_elem_of_cons in Hnl as [Hc Hnl].
  rewrite <- app_comm_cons, lazy_group_cons.
  rewrite (proj2 (N.eqb_neq c 10)) by done.
  destruct ts as [|c' ts'].
  - rewrite app_nil_l. by rewrite startswith_app.
  - assert (PyStr.contains (py " on") ((c' :: ts') ++ py " o") = false)
      as Hon' by exact Hon.
    assert (PyStr.startswith (py " on") ((c' :: ts') ++ py " o") = false
            ∧ PyStr.contains (py " on") (drop 1 ((c' :: ts') ++ py " o"))
              = false) as [Hstart Hrest].
    { rewrite <- app_comm_cons in Hon'.
      change (PyStr.contains (py " on") (c' :: ts' ++ py " o"))
        with (PyStr.startswith (py " on") (c' :: ts' ++ py " o")
              || PyStr.contains (py " on") (ts' ++ py " o")) in Hon'.
      by apply orb_false_iff in Hon'. }
    rewrite startswith_on_ahead by done. rewrite Hstart.
    by rewrite IH.
Qed.

Lemma search_scan_at_found text g :
  PyStr.startswith (py "Scan at ") text = true →
  lazy_group (drop 8 text) = Some g →
  search_scan_at text = Some g.
Proof.
  intros Hs Hg. destruct text as [|c text]; [by vm_compute in Hs|].
  change (search_scan_at (c :: text))
    with (match (if PyStr.startswith (py "Scan at ") (c :: text)
                 then lazy_group (drop 8 (c :: text)) else None) with
          | Some g => Some g
          | None => search_scan_at text
          end).
  by rewrite Hs, Hg.
Qed.

Lemma scan_timestamp_of_label render timestamp frequency :
  readable_key timestamp = true →
  scan_timestamp (scan_label render timestamp frequency) = Ok timestamp.
Proof.
  unfold readable_key. intros [[Hne Hnl]%andb_prop Hon]%andb_prop.
  apply negb_true_iff in Hne, Hnl, Hon.
  apply bool_decide_eq_false in Hne, Hnl.
  unfold scan_timestamp, scan_label.
  rewrite (search_scan_at_found _ timestamp); [done| |].
  - apply startswith_app.
  - change 8 with (length (py "Scan at ")). rewrite drop_app_length.
    change (py " on " ++ render frequency ++ py " Hz")
      with (py " on" ++ 32%N :: render frequency ++ py " Hz").
    by apply lazy_group_key.
Qed.

Lemma session_of_lookup a logs :
  session_of a logs !! py "frequency" = Some (to_json (fc a))
  ∧ session_of a logs !! py "gain" = Some (to_json (gain a))
  ∧ session_of a logs !! py "ppm" = Some (to_json (ppm a))
  ∧ session_of a logs !! py "logs" = Some (JStr logs).
Proof.
  unfold session_of. split; [|split; [|split]].
  - by rewrite lookup_insert_eq.
  - rewrite !lookup_insert_ne by (by vm_compute). by rewrite lookup_insert_eq.
  - rewrite lookup_insert_ne by (by vm_compute). by rewrite lookup_insert_eq.
  - rewrite !lookup_insert_ne by (by vm_compute). by rewrite lookup_insert_eq.
Qed.

Lemma add_new_scan_result render a now logs s :
  add_new_scan render a now logs s
  = (mkScans (scan_model s ++ [scan_label render now (fc a)])
             (Stored (<[now := session_of a logs]>
                        (load_scan_data (store s)).2)),
     Ok ()).
Proof. unfold add_new_scan. by destruct (store s). Qed.

(** X14.  Saving a scan cannot fail for want of the [logs] directory or of
    the file, and what is loaded afterwards is the earlier document with
    the new session under its timestamp: the session holds the flowgraph's
    frequency, gain and ppm and the log text, and every other timestamp
    keeps its session. *)
Theorem saved_scan_is_loaded_back (render : pyval → str) (a : app)
    (now logs : str) (s : scans) (other : str) :
  other ≠ now →
  let out := add_new_scan render a now logs s in
  let before := (load_scan_data (store s)).2 in
  let after := (load_scan_data (store out.1)).2 in
  out.2 = Ok ()
  ∧ after !! now = Some (session_of a logs)
  ∧ after !! other = before !! other
  ∧ (session_of a logs !! py "frequency" = Some (to_json (fc a))
     ∧ session_of a logs !! py "gain" = Some (to_json (gain a))
     ∧ session_of a logs !! py "ppm" = Some (to_json (ppm a))
     ∧ session_of a logs !! py "logs" = Some (JStr logs)).
Proof.
  intros Hne out before after. subst out after before.
  rewrite add_new_scan_result. simpl.
  split; [done|]. split; [by rewrite lookup_insert_eq|].
  split; [by rewrite lookup_insert_ne|]. apply session_of_lookup.
Qed.

Lemma saved_scan_is_loaded_back_witness :
  let s := mkScans [] NoDir in
  let out := add_new_scan (fun _ => py "943203831.0") app_init
               (py "2024-01-01 10:00 CET") (py "1;a;b;c;d;e;f") s in
  out.2 = Ok ()
  ∧ (load_scan_data (store out.1)).2 !! py "2024-01-01 10:00 CET"
    = Some (session_of app_init (py "1;a;b;c;d;e;f"))
  ∧ (load_scan_data (store out.1)).2 !! py "2024-01-01 10:01 CET" = None.
Proof.
  intros s out.
  destruct (saved_scan_is_loaded_back (fun _ => py "943203831.0") app_init
              (py "2024-01-01 10:00 CET") (py "1;a;b;c;d;e;f") s
              (py "2024-01-01 10:01 CET")) as (Hok & Hnew & Hother & _).
  - by vm_compute.
  - split; [exact Hok|]. split; [exact Hnew|].
    etransitivity; [exact Hother | reflexivity].
Defined.

(** X15.  Two saves under the same timestamp (the same minute): the second
    session replaces the first on disk, as if the first save had not
    happened, while the list of the Scans tab has gained two entries. *)
Theorem same_minute_save_overwrites (render : pyval → str) (a1 a2 : app)
    (now logs1 logs2 : str) (s : scans) :
  let first := (add_new_scan render a1 now logs1 s).1 in
  let second := (add_new_scan render a2 now logs2 first).1 in
  store second = store (add_new_scan render a2 now logs2 s).1
  ∧ (load_scan_data (store second)).2 !! now = Some (session_of a2 logs2)
  ∧ length (scan_model second) = length (scan_model s) + 2.
Proof.
  intros first second. subst second first.
  rewrite !add_new_scan_result. simpl.
  split; [by rewrite insert_insert_eq|].
  split; [by rewrite lookup_insert_eq|].
  rewrite !length_app. simpl. lia.
Qed.

(** X16.  The timestamp is read back from a list entry as it was written
    into it, whatever the frequency shown after it, provided the timestamp
    is not empty, has no newline, and has no " on" after its first
    character. *)
Theorem label_gives_back_timestamp (render : pyval → str) (timestamp : str)
    (frequency : pyval) :
  readable_key timestamp = true →
  scan_timestamp (scan_label render timestamp frequency) = Ok timestamp.
Proof. apply scan_timestamp_of_label. Qed.

Lemma label_gives_back_timestamp_witness :
  scan_timestamp (py "Scan at 2024-01-01 10:00 CET on 943203831.0 Hz")
  = Ok (py "2024-01-01 10:00 CET").
Proof.
  apply (label_gives_back_timestamp (fun _ => py "943203831.0")
           (py "2024-01-01 10:00 CET") (VInt 0)).
  reflexivity.
Defined.

Lemma view_log_stored doc text timestamp :
  scan_timestamp text = Ok timestamp →
  view_log (Stored doc) text
  = (Stored doc,
     Ok (default no_logs (default ∅ (doc !! timestamp) !! py "logs"))).
Proof. intros H. unfold view_log. by rewrite H. Qed.

(** X17.  What was saved is what is shown: selecting the list entry that a
    save has just added, "View Log" is given exactly the log text that was
    saved, and "View Table" the table the dialog builds from that text. *)
Theorem saved_log_is_shown (render : pyval → str) (a : app)
    (now logs : str) (s : scans) :
  readable_key now = true →
  let out := (add_new_scan render a now logs s).1 in
  last (scan_model out) = Some (scan_label render now (fc a))
  ∧ view_log (store out) (scan_label render now (fc a))
    = (store out, Ok (JStr logs))
  ∧ view_table (store out) (scan_label render now (fc a))
    = (store out, Ok (populate_table imsi_table_init logs)).
Proof.
  intros Hkey out. subst out. rewrite add_new_scan_result. cbn [fst].
  cbn [scan_model store]. split; [by rewrite last_snoc|].
  assert (view_log (Stored (<[now:=session_of a logs]>
                              (load_scan_data (store s)).2))
                   (scan_label render now (fc a))
          = (Stored (<[now:=session_of a logs]> (load_scan_data (store s)).2),
             Ok (JStr logs))) as Hlog.
  { rewrite (view_log_stored _ _ now)
      by (by apply scan_timestamp_of_label).
    rewrite lookup_insert_eq. simpl.
    destruct (session_of_lookup a logs) as (_ & _ & _ & ->). done. }
  split; [done|]. unfold view_table. by rewrite Hlog.
Qed.

Lemma saved_log_is_shown_witness :
  let render := fun _ : pyval => py "943203831.0" in
  let now := py "2024-01-01 10:00 CET" in
  let out := (add_new_scan render app_init now (py "1;a;b;c;d;e;f")
                (mkScans [] EmptyDir)).1 in
  view_log (store out) (scan_label render now (fc app_init))
  = (store out, Ok (JStr (py "1;a;b;c;d;e;f"))).
Proof.
  intros render now out.
  destruct (saved_log_is_shown render app_init now (py "1;a;b;c;d;e;f")
              (mkScans [] EmptyDir) eq_refl) as (_ & H & _).
  exact H.
Defined.

(** X18.  An entry whose timestamp is not in the stored document, or whose
    session has no [logs], shows "No logs available." as its log and an
    empty eleven-column table, not an error. *)
Theorem unknown_scan_shows_no_logs (d : disk) (text timestamp : str) :
  scan_timestamp text = Ok timestamp →
  default ∅ ((load_scan_data d).2 !! timestamp) !! py "logs" = None →
  (view_log d text).2 = Ok no_logs
  ∧ (view_table d text).2 = Ok imsi_table_init.
Proof.
  intros Hts Hnone. unfold view_table, view_log. rewrite Hts.
  destruct (load_scan_data d) as [d1 doc]. simpl in *.
  rewrite Hnone. by split.
Qed.

Lemma unknown_scan_shows_no_logs_witness :
  (view_log NoDir (py "Scan at 2024-01-01 10:00 CET on 943203831.0 Hz")).2
  = Ok no_logs
  ∧ (view_table NoDir (py "Scan at 2024-01-01 10:00 CET on 943203831.0 Hz")).2
    = Ok imsi_table_init.
Proof.
  apply (unknown_scan_shows_no_logs NoDir _ (py "2024-01-01 10:00 CET"));
    reflexivity.
Defined.





(** ** How a failed replay is reported *)

Lemma convert_params_missing {python : Python} logs :
  logs !! py "frequency" = None ∨ logs !! py "gain" = None
  ∨ logs !! py "ppm" = None →
  convert_params logs = Raise KeyError.
Proof.
  unfold convert_params, getitem. intros [H|[H|H]].
  - by rewrite H.
  - rewrite H. by destruct (logs !! py "frequency").
  - rewrite H. destruct (logs !! py "frequency"); [|done].
    by destruct (logs !! py "gain").
Qed.

(** X20.  A session that lacks one of the keys [frequency], [gain], [ppm]
    (an unknown timestamp lacks all three): the [KeyError] is not among the
    exceptions [extract_params_from_logs] handles, so the replay shows one
    error box, the one of [repeat_scan], carrying that [KeyError]. *)
Theorem missing_key_is_reported_once {python : Python}
    (a : app) (timestamp : str)
    (scan_data : gmap str (gmap str json)) (now : str) (start : result ()) :
  let logs := default ∅ (scan_data !! timestamp) in
  logs !! py "frequency" = None ∨ logs !! py "gain" = None
  ∨ logs !! py "ppm" = None →
  critical_boxes (repeat_scan a timestamp scan_data now start)
  = critical_boxes a
    ++ [(py "An error occurred while repeating the scan: ", KeyError)].
Proof.
  intros logs Hmissing. unfold repeat_scan, extract_params_from_logs.
  fold logs. by rewrite (convert_params_missing logs Hmissing).
Qed.

Lemma missing_key_is_reported_once_witness :
  critical_boxes (repeat_scan app_init (py "2024-01-01 10:00 CET") ∅
                    (py "2024-01-02 09:30 CET") (Ok ()))
  = [(py "An error occurred while repeating the scan: ", KeyError)].
Proof.
  apply (missing_key_is_reported_once app_init (py "2024-01-01 10:00 CET") ∅
           (py "2024-01-02 09:30 CET") (Ok ())).
  left. reflexivity.
Defined.

Lemma convert_params_bad_frequency {python : Python} logs x y z e :
  logs !! py "frequency" = Some x → logs !! py "gain" = Some y →
  logs !! py "ppm" = Some z → x ≠ JNull → py_int x = Raise e →
  convert_params logs = Raise e.
Proof.
  intros Hx Hy Hz Hnull He. unfold convert_params, getitem.
  rewrite Hx, Hy, Hz. cbn [bind].
  destruct x; simpl in *; try done; first [by rewrite He | by simplify_eq].
Qed.

(** X21.  A session that has all three keys but a frequency [int] rejects
    with a [ValueError] or a [TypeError] (a string that is no integer, a
    list): the operator gets two error boxes, first the one of
    [extract_params_from_logs] with that exception, then the one of
    [repeat_scan] with the [ValueError] it raises on the missing values. *)
Theorem bad_frequency_is_reported_twice {python : Python}
    (a : app) (timestamp : str)
    (scan_data : gmap str (gmap str json)) (now : str) (start : result ())
    (x y z : json) (e : exn) :
  let logs := default ∅ (scan_data !! timestamp) in
  logs !! py "frequency" = Some x → logs !! py "gain" = Some y →
  logs !! py "ppm" = Some z →
  x ≠ JNull → py_int x = Raise e → e = ValueError ∨ e = TypeError →
  critical_boxes (repeat_scan a timestamp scan_data now start)
  = critical_boxes a
    ++ [(py "An error occurred while converting parameters to float: ", e);
        (py "An error occurred while repeating the scan: ", ValueError)].
Proof.
  intros logs Hx Hy Hz Hnull He Hkind.
  unfold repeat_scan, extract_params_from_logs. fold logs.
  rewrite (convert_params_bad_frequency logs x y z e) by done.
  destruct Hkind as [-> | ->]; simpl; by rewrite <- app_assoc.
Qed.

Lemma bad_frequency_is_reported_twice_witness :
  let session : gmap str json :=
    <[py "frequency" := JStr (py "943.2 MHz")]>
      (<[py "gain" := JInt 50]> (<[py "ppm" := JInt 0]> ∅)) in
  let scan_data : gmap str (gmap str json) :=
    <[py "2024-01-01 10:00 CET" := session]> ∅ in
  critical_boxes (repeat_scan app_init (py "2024-01-01 10:00 CET") scan_data
                    (py "2024-01-02 09:30 CET") (Ok ()))
  = [(py "An error occurred while converting parameters to float: ",
      ValueError);
     (py "An error occurred while repeating the scan: ", ValueError)].
Proof.
  intros session scan_data.
  apply (bad_frequency_is_reported_twice app_init (py "2024-01-01 10:00 CET")
           scan_data (py "2024-01-02 09:30 CET") (Ok ())
           (JStr (py "943.2 MHz")) (JInt 50) (JInt 0) ValueError).
  - vm_compute. reflexivity.
  - vm_compute. reflexivity.
  - vm_compute. reflexivity.
  - discriminate.
  - vm_compute. reflexivity.
  - by left.
Defined.

(** X22.  The converse of the asymmetry between frequency and gain in
    [extract_params_from_logs]: a stored string the function accepts as
    frequency, it also accepts as gain and as ppm, where it reads as a number
    without fractional part. *)
Theorem frequency_string_fits_gain_and_ppm {python : Python} (a : app)
    (logs : gmap str json) (s : str) (fv gv pv : pyval) :
  logs !! py "frequency" = Some (JStr s) →
  extract_params_from_logs a logs = (a, Ok (Some fv, Some gv, Some pv)) →
  ∃ f,
    extract_params_from_logs a
      (<[py "gain" := JStr s]> (<[py "ppm" := JStr s]> logs))
    = (a, Ok (Some fv, Some (VFloat f), Some (VFloat f)))
    ∧ fractional f = false.
Proof.
  intros Hs Hok.
  assert (convert_params logs = Ok (Some fv, Some gv, Some pv)) as Hc.
  { unfold extract_params_from_logs in Hok.
    destruct (convert_params logs) as [r|[]]; by simplify_eq. }
  apply convert_params_inv in Hc
    as (x & y & z & n & g & p & Hx & _ & _ & Hn & _ & _ & -> & _).
  rewrite Hs in Hx. injection Hx as <-.
  simpl in Hn. apply int_of_str_float in Hn as Hf. destruct Hf as (neg & m & Hf).
  exists (Num.of_numeral neg m 0). split; [|apply of_numeral_not_fractional].
  unfold extract_params_from_logs, convert_params, getitem.
  rewrite (lookup_insert_ne _ (py "gain") (py "frequency")) by (by vm_compute).
  rewrite (lookup_insert_ne _ (py "ppm") (py "frequency")) by (by vm_compute).
  rewrite Hs, lookup_insert_eq.
  rewrite (lookup_insert_ne _ (py "gain") (py "ppm")) by (by vm_compute).
  rewrite lookup_insert_eq.
  cbn [bind unless_none py_int py_float]. by rewrite Hn, Hf.
Qed.

Lemma frequency_string_fits_gain_and_ppm_witness :
  let s := py " +943_203_831 " in
  let logs : gmap str json :=
    <[py "frequency" := JStr s]>
      (<[py "gain" := JInt 50]> (<[py "ppm" := JInt 0]> ∅)) in
  ∃ f,
    extract_params_from_logs app_init
      (<[py "gain" := JStr s]> (<[py "ppm" := JStr s]> logs))
    = (app_init, Ok (Some (VInt 943203831), Some (VFloat f), Some (VFloat f)))
    ∧ fractional f = false.
Proof.
  intros s logs.
  apply (frequency_string_fits_gain_and_ppm app_init logs s
           (VInt 943203831) (VFloat (Fin false 50 0)) (VFloat (Fin false 0 0))).
  - vm_compute. reflexivity.
  - vm_compute. reflexivity.
Defined.

(** ** Shape of a line sequence; the table over a whole run *)

(** X23.  Whatever the process does, what [runProcess] yields is the lines
    of bytes it read followed by at most one synthetic [str] line, which is
    then the last thing yielded; a sequence that has not ended has none. *)
Theorem yielded_is_lines_then_one_str (l : launch) :
  ∃ tl, (runProcess l).1 = map YBytes (stdout_lines l) ++ tl
        ∧ (tl = [] ∨ ∃ s, tl = [YStr s])
        ∧ ((runProcess l).2 = false → tl = []).
Proof.
  destruct (runProcess_shape l) as (bs & tl & Heq & Htl).
  destruct (stdout_lines_shape l bs tl Heq Htl) as [Hbs _].
  exists tl. rewrite Hbs. split; [done|]. split; [done|].
  intros Hrun. destruct Htl as [->|[s ->]]; [done|]. exfalso.
  destruct l as [d|[ts err]]; [done|]. simpl in *.
  clear Hbs. revert bs Heq.
  induction ts as [|[[rc|] line] ts IH]; intros bs Heq; simpl in *.
  - by destruct bs.
  - done.
  - destruct (runProcess_loop err ts) as [ys fin]. simpl in *.
    destruct bs as [|b bs]; simpl in Heq; [by simplify_eq|].
    injection Heq as _ Heq. by eapply IH.
Qed.

(** X24.  A row of the live table, once appended, is still there with the
    same cells after any sequence of operations of the window (capture
    starts and stops, replays, further lines), and the table never gets
    shorter. *)
Theorem rows_survive_any_run {python : Python}
    (a : app) (evs : list event) (r c : nat) :
  Table.wf (imsi_table a) → r < rowCount (imsi_table a) →
  Table.item (imsi_table (foldl step a evs)) r c = Table.item (imsi_table a) r c
  ∧ rowCount (imsi_table a) ≤ rowCount (imsi_table (foldl step a evs)).
Proof.
  intros Hwf Hr. split; [by apply steps_old_rows|].
  clear r c Hr. revert a Hwf.
  induction evs as [|ev evs IH]; intros a Hwf; simpl; [done|].
  etransitivity; [by apply step_rowCount|]. apply IH. by apply step_wf.
Qed.

Lemma rows_survive_any_run_witness :
  let a := on_output app_init (py "1;a;b;c;d;e;f") in
  let evs := [StopCapture (Ok ());
              StartCapture (py "2024-01-01 10:00 CET") (Ok ());
              OutputLine (py "2;g;h;i;j;k;l");
              RepeatScan (py "2024-01-01 09:00 CET") ∅
                         (py "2024-01-01 10:05 CET") (Ok ())] in
  Table.item (imsi_table (foldl step a evs)) 0 0 = Some (py "a")
  ∧ rowCount (imsi_table a) ≤ rowCount (imsi_table (foldl step a evs)).
Proof.
  intros a evs.
  assert (0 < rowCount (imsi_table a)) as Hr by (vm_compute; lia).
  destruct (rows_survive_any_run a evs 0 0 eq_refl Hr) as [Hitem Hcount].
  split; [|exact Hcount]. etransitivity; [exact Hitem | reflexivity].
Defined.

(** X25.  Writing back the document that was just loaded never fails, not
    even on a first run without directory or file, and loading again gives
    the same document; it is the load that makes the save possible, for
    saving with no [logs] directory raises. *)
Theorem load_save_load (d : disk) (doc' : gmap str (gmap str json)) :
  (let '(d1, doc) := load_scan_data d in
   ∃ d2, save_scan_data d1 doc = Ok d2 ∧ (load_scan_data d2).2 = doc)
  ∧ save_scan_data NoDir doc' = Raise OSError
  ∧ (load_scan_data NoDir).2 = ∅.
Proof. split; [|done]. destruct d; simpl; by eexists. Qed.

(** ** The flat-text session dump *)

(** X26.  [export_data] for an entry whose session has a text log, with a
    writable destination and a device that takes every write: the file
    [exported_scan_data_<timestamp>.txt] ends up holding the four parameter
    lines of the selected session, its log, and then the rows of the live
    table, written exactly as the [.txt] export of [export_table] writes
    them after its header, whichever session was selected; the "Success"
    box is shown and the stored document is not changed. *)
Theorem export_data_dumps_live_table (show : option json → str)
    (w : world) (d : disk) (t : QTableWidget) (selected_text timestamp : str)
    (logs : str) :
  let params := default ∅ ((load_scan_data d).2 !! timestamp) in
  let path := py "exported_scan_data_" ++ timestamp ++ py ".txt" in
  scan_timestamp selected_text = Ok timestamp →
  default no_logs (params !! py "logs") = JStr logs →
  path ∉ denied w → rowCount t + 7 ≤ budget w →
  let out := export_data show w d t selected_text in
  out.2 = Ok true
  ∧ (load_scan_data out.1.2).2 = (load_scan_data d).2
  ∧ files out.1.1 !! path
    = Some (TextFile
              (export_data_head show timestamp params
               ++ Text logs
               :: Text (newline ++ py "Captured IMSIs:" ++ newline)
               :: drop 1 (txt_lines t header_labels))).
Proof.
  intros params path Hts Hlogs Hok Hb out. subst out.
  unfold export_data. rewrite Hts.
  assert ((load_scan_data (load_scan_data d).1).2 = (load_scan_data d).2)
    as Hload by (by destruct d).
  destruct (load_scan_data d) as [d1 doc]. cbn [fst snd] in *.
  fold params. rewrite Hlogs. fold path.
  unfold IO.open_w. rewrite decide_False by done.
  rewrite (write_all_ok _ _ _ [])
    by (simpl; lia || by rewrite lookup_insert_eq).
  cbn [files denied budget failure].
  rewrite insert_insert_eq, app_nil_l.
  assert (length (Text logs :: export_data_tail t) = rowCount t + 2) as Hlen.
  { unfold export_data_tail. simpl. rewrite length_map, length_seq. lia. }
  rewrite (write_all_ok _ _ _ (export_data_head show timestamp params))
    by (simpl; (rewrite length_map, length_seq; lia)
               || by rewrite lookup_insert_eq).
  cbn [fst snd files].
  split; [done|]. split; [done|].
  by rewrite insert_insert_eq, lookup_insert_eq.
Qed.

Lemma export_data_dumps_live_table_witness :
  let show := fun o : option json =>
    match o with Some _ => py "50" | None => py "None" end in
  let t := update_table imsi_table_init (py "1;a;b;c;d;e;f") in
  let out := export_data show (mkWorld ∅ ∅ 8 DeviceFails) NoDir t
               (py "Scan at 2024-01-01 10:00 CET on 943203831.0 Hz") in
  out.2 = Ok true
  ∧ files out.1.1 !! py "exported_scan_data_2024-01-01 10:00 CET.txt"
    = Some (TextFile
              (export_data_head show (py "2024-01-01 10:00 CET") ∅
               ++ Text (py "No logs available.")
               :: Text (newline ++ py "Captured IMSIs:" ++ newline)
               :: drop 1 (txt_lines t header_labels))).
Proof.
  intros show t out.
  destruct (export_data_dumps_live_table show (mkWorld ∅ ∅ 8 DeviceFails)
              NoDir t
              (py "Scan at 2024-01-01 10:00 CET on 943203831.0 Hz")
              (py "2024-01-01 10:00 CET") (py "No logs available.")
              eq_refl eq_refl) as (Hok & _ & Hfile).
  - intros Hin. by apply not_elem_of_empty in Hin.
  - vm_compute. lia.
  - split; [exact Hok | exact Hfile].
Defined.
